(** * yut_downloader: option resolution and batch execution of [app.py]

    A shallow embedding of [src/app.py].  Python values are an inductive
    type, dictionaries are finite maps with string keys, and the statements
    of [build_ydl_opts], [download_item] and [main] are sequenced in a small
    state-and-exception monad.  What the program delegates (pathlib, the
    JSON reader, the yt-dlp engine, [repr]) is an interface, [Collaborators],
    that the definitions take as a type class. *)

From Stdlib Require Import ZArith String Ascii.
From Stdlib Require Import Floats.PrimFloat.
From stdpp Require Import gmap strings list fin_maps pretty.

Local Open Scope string_scope.
Local Open Scope list_scope.
Local Set Warnings "-register-all".

(** ** Values *)

(** The values [json.load] produces, plus function objects (the option
    dictionary holds the progress hook).  A [string] is read as a sequence
    of code points below 256, one per [ascii]; on such strings [lower],
    [strip] and iteration below are exactly Python's. *)
Inductive value :=
| VNone
| VBool (b : bool)
| VInt (n : Z)
| VFloat (f : float)
| VStr (s : string)
| VList (l : list value)
| VDict (d : gmap string value)
| VFunc (name : string).

Abbreviation dict := (gmap string value).

(** Exceptions; every one of them is a subclass of [Exception].  [External]
    is whatever a collaborator raises (OSError, DownloadError, ...). *)
Inductive exn :=
| ValueError (msg : string)
| AttributeError (msg : string)
| TypeError (msg : string)
| External (msg : string).

(** [bool(v)] *)
Definition truthy (v : value) : bool :=
  match v with
  | VNone => false
  | VBool b => b
  | VInt n => negb (Z.eqb n 0)
  | VFloat f => negb (PrimFloat.eqb f 0%float)
  | VStr s => negb (String.eqb s EmptyString)
  | VList l => match l with [] => false | _ :: _ => true end
  | VDict d => negb (bool_decide (d = ∅))
  | VFunc _ => true
  end.

(** [a or b] *)
Definition py_or (a b : value) : value := if truthy a then a else b.

(** [d.get(k)] and [d.get(k, dflt)] *)
Definition py_get (d : dict) (k : string) : value := default VNone (d !! k).
Definition py_get_default (d : dict) (k : string) (dflt : value) : value :=
  default dflt (d !! k).

(** [k in d] *)
Definition py_in (k : string) (d : dict) : bool := bool_decide (is_Some (d !! k)).

(** [v == s] for a string literal [s]: only a string is equal to a string. *)
Definition py_eq_str (v : value) (s : string) : bool :=
  match v with
  | VStr t => String.eqb t s
  | _ => false
  end.

(** ** Strings *)

Definition lower_char (c : ascii) : ascii :=
  let n := nat_of_ascii c in
  if (Nat.leb 65 n && Nat.leb n 90)
     || (Nat.leb 192 n && Nat.leb n 222 && negb (Nat.eqb n 215))
  then ascii_of_nat (n + 32) else c.

(** [s.lower()] *)
Fixpoint lower (s : string) : string :=
  match s with
  | EmptyString => EmptyString
  | String c s' => String (lower_char c) (lower s')
  end.

(** [c.isspace()] *)
Definition is_space (c : ascii) : bool :=
  let n := nat_of_ascii c in
  (Nat.leb 9 n && Nat.leb n 13) || (Nat.leb 28 n && Nat.leb n 32)
  || Nat.eqb n 133 || Nat.eqb n 160.

Fixpoint lstrip (s : string) : string :=
  match s with
  | EmptyString => EmptyString
  | String c s' => if is_space c then lstrip s' else s
  end.

Definition string_rev (s : string) : string :=
  string_of_list_ascii (rev (list_ascii_of_string s)).

(** [s.strip()] *)
Definition strip (s : string) : string :=
  string_rev (lstrip (string_rev (lstrip s))).

(** [v.lower()] and [v.strip()] on an arbitrary object: only [str] has the
    method. *)
Definition str_lower (v : value) : exn + string :=
  match v with
  | VStr s => inr (lower s)
  | _ => inl (AttributeError "lower")
  end.

Definition str_strip (v : value) : exn + string :=
  match v with
  | VStr s => inr (strip s)
  | _ => inl (AttributeError "strip")
  end.

(** ** What the program writes *)

Inductive event :=
| PrintUsage
| PrintConfigNotFound (path : string)
| PrintNoItems
| LogProcessing (idx n : nat)
| LogStart (url : value)
| LogDone
| LogFailed (idx : nat) (e : exn)
| LogAllFinished
| LogDownloading (percent speed eta : string)
| LogPostProcessing.

(** ** Collaborators *)

(** The library calls of the program, over a world [W] (file system and
    network).
    - [py_repr]: [repr] of a float, a container or a function;
    - [path_resolve p]: [Path(p).expanduser().resolve()], as a string;
    - [path_mkdir p]: [Path(p).mkdir(parents=True, exist_ok=True)];
    - [path_div p q]: [str(Path(p) / q)];
    - [path_exists p]: [Path(p).expanduser().exists()];
    - [load_json p]: [open] then [json.load];
    - [ydl_download opts url]: [with yt_dlp.YoutubeDL(opts) as ydl:
      ydl.download([url])].
    What the engine does while it runs, the lines of the progress hook it
    calls included, is part of its effect on the world: the trace below
    holds the lines the statements of [download_item] and [main] write
    themselves.  [path_exists] is the boolean answer of [exists()]. *)
Class Collaborators (W : Type) := {
  py_repr : value → string;
  path_resolve : string → W → exn + string;
  path_mkdir : string → W → option exn * W;
  path_div : string → string → string;
  path_exists : string → W → bool;
  load_json : string → W → exn + value;
  ydl_download : dict → value → W → option exn * W;
}.

(** ** The monad: a world, the written events, and exceptions *)

Record state (W : Type) := State { world : W; trace : list event }.
Arguments State {W} _ _.
Arguments world {W} _.
Arguments trace {W} _.

Definition M (W A : Type) : Type := state W → (exn + A) * state W.

Definition ret {W A} (a : A) : M W A := fun s => (inr a, s).
Definition raise {W A} (e : exn) : M W A := fun s => (inl e, s).
Definition bind {W A B} (m : M W A) (k : A → M W B) : M W B :=
  fun s => match m s with
           | (inr a, s') => k a s'
           | (inl e, s') => (inl e, s')
           end.
(** [try: m except Exception as e: h e] *)
Definition try_except {W A} (m : M W A) (h : exn → M W A) : M W A :=
  fun s => match m s with
           | (inr a, s') => (inr a, s')
           | (inl e, s') => h e s'
           end.
Definition lift {W A} (r : exn + A) : M W A := fun s => (r, s).
Definition emit {W} (ev : event) : M W unit :=
  fun s => (inr tt, State (world s) (trace s ++ [ev])).
(** a call that reads the world *)
Definition ask {W A} (f : W → exn + A) : M W A := fun s => (f (world s), s).
(** a call that changes the world and may raise *)
Definition act {W} (f : W → option exn * W) : M W unit :=
  fun s => match f (world s) with
           | (None, w) => (inr tt, State w (trace s))
           | (Some e, w) => (inl e, State w (trace s))
           end.

Notation "x <- m ;; k" := (bind m (fun x => k))
  (at level 100, m at next level, right associativity).
Notation "m ;;; k" := (bind m (fun _ => k))
  (at level 100, right associativity).

(** ** Option resolution *)

(** The values [build_ydl_opts] reads from the item and the global
    configuration, each under the name of its local variable. *)

Definition filename_template (item cfg : dict) : value :=
  py_or (py_or (py_get item "filename_template") (py_get cfg "filename_template"))
        (VStr "%(title)s.%(ext)s").

Definition proxy (item cfg : dict) : value :=
  py_or (py_get item "proxy") (py_get cfg "proxy").

Definition ffmpeg_location (item cfg : dict) : value :=
  py_or (py_get item "ffmpeg_location") (py_get cfg "ffmpeg_location").

Definition cookiefile (item cfg : dict) : value :=
  py_or (py_get item "cookies") (py_get cfg "cookies").

Definition concurrent_fragments (item cfg : dict) : value :=
  py_get_default item "concurrent_fragments"
    (py_get_default cfg "concurrent_fragments" (VInt 5)).

Definition convert_to_audio (item cfg : dict) : value :=
  py_get_default item "convert_to_audio"
    (py_get_default cfg "convert_to_audio" (VBool false)).

Definition video_format (item cfg : dict) : value :=
  py_get_default item "video_format" (py_get_default cfg "video_format" (VStr "mp4")).

Definition quality (item cfg : dict) : value :=
  py_get_default item "quality" (py_get_default cfg "quality" (VStr "best")).

Definition audio_format (item cfg : dict) : value :=
  py_get_default item "audio_format" (py_get_default cfg "audio_format" (VStr "mp3")).

(** the argument of [str] in the assignment of [audio_bitrate] *)
Definition audio_bitrate_value (item cfg : dict) : value :=
  py_get_default item "audio_bitrate" (py_get_default cfg "audio_bitrate" (VInt 192)).

Definition rate_limit (item cfg : dict) : value :=
  py_get_default item "rate_limit" (py_get cfg "rate_limit").

Definition remove_sponsor_segments (item cfg : dict) : value :=
  py_get_default item "remove_sponsor_segments"
    (py_get_default cfg "remove_sponsor_segments" (VBool false)).

(** [(item.get("type") or "video").lower()] *)
Definition requested_type (item : dict) : exn + string :=
  str_lower (py_or (py_get item "type") (VStr "video")).

(** [Path(v)] *)
Definition new_path (v : value) : exn + string :=
  match v with
  | VStr s => inr s
  | _ => inl (TypeError "Path")
  end.

(** [if v: d[k] = v] *)
Definition set_if_truthy (k : string) (v : value) (d : dict) : dict :=
  if truthy v then <[k := v]> d else d.

(** [d.setdefault(k, v)]: the object found or stored, and the dictionary. *)
Definition setdefault (d : dict) (k : string) (v : value) : value * dict :=
  match d !! k with
  | Some x => (x, d)
  | None => (v, <[k := v]> d)
  end.

(** [pp.append(x)] where [pp] is the object stored in [d] under [k]: the
    list is shared, so the dictionary sees the new element. *)
Definition append_at (d : dict) (k : string) (pp x : value) : exn + dict :=
  match pp with
  | VList l => inr (<[k := VList (l ++ [x])]> d)
  | _ => inl (AttributeError "append")
  end.

Definition extract_audio (codec : value) (bitrate : string) : value :=
  VDict {[ "key" := VStr "FFmpegExtractAudio";
           "preferredcodec" := codec;
           "preferredquality" := VStr bitrate ]}.

Definition sponsorblock_categories : value :=
  VList [VStr "sponsor"; VStr "intro"; VStr "outro"; VStr "interaction";
         VStr "selfpromo"].

Section Program.
Context {W : Type} `{!Collaborators W}.

(** [str(v)] *)
Definition py_str (v : value) : string :=
  match v with
  | VStr s => s
  | VInt n => pretty n
  | VNone => "None"
  | VBool true => "True"
  | VBool false => "False"
  | _ => py_repr v
  end.

Definition audio_bitrate (item cfg : dict) : string :=
  py_str (audio_bitrate_value item cfg).

(** [str(out_dir / name)] *)
Definition path_join (out_dir : string) (name : value) : exn + string :=
  match name with
  | VStr s => inr (path_div out_dir s)
  | _ => inl (TypeError "/")
  end.

(** The "Format selection" statement of [build_ydl_opts]. *)
Definition select_format (item cfg : dict) (requested : string) (ydl_opts : dict)
  : exn + dict :=
  if String.eqb requested "audio" then
    inr (<["postprocessors" :=
             VList [extract_audio (audio_format item cfg) (audio_bitrate item cfg)]]>
           (<["format" := VStr "bestaudio/best"]> ydl_opts))
  else
    let ydl_opts :=
      if py_eq_str (quality item cfg) "best"
      then <["format" := VStr "bv*+ba/b"]> ydl_opts
      else <["format" := quality item cfg]> ydl_opts in
    let ydl_opts := <["merge_output_format" := video_format item cfg]> ydl_opts in
    if truthy (convert_to_audio item cfg) then
      let '(pp, ydl_opts) := setdefault ydl_opts "postprocessors" (VList []) in
      append_at ydl_opts "postprocessors" pp
        (extract_audio (audio_format item cfg) (audio_bitrate item cfg))
    else inr ydl_opts.

(** The "Defaults" dictionary and the three optional entries after it. *)
Definition default_opts (item cfg : dict) (outtmpl : string) : dict :=
  let ydl_opts : dict :=
    {[ "outtmpl" := VStr outtmpl;
       "noplaylist" := VBool true;
       "quiet" := VBool false;
       "progress_hooks" := VList [VFunc "_progress_hook"];
       "retries" := VInt 10;
       "concurrent_fragment_downloads" := concurrent_fragments item cfg ]} in
  let ydl_opts := set_if_truthy "proxy" (proxy item cfg) ydl_opts in
  let ydl_opts := set_if_truthy "ffmpeg_location" (ffmpeg_location item cfg) ydl_opts in
  set_if_truthy "cookiefile" (cookiefile item cfg) ydl_opts.

(** "Throttling / rate limit" *)
Definition throttle (item cfg ydl_opts : dict) : dict :=
  if py_in "rate_limit" cfg || py_in "rate_limit" item
  then <["ratelimit" := rate_limit item cfg]> ydl_opts
  else ydl_opts.

(** "SponsorBlock / chapters removal options" *)
Definition sponsorblock (item cfg ydl_opts : dict) : dict :=
  if truthy (remove_sponsor_segments item cfg)
  then <["sponsorblock_mark" := sponsorblock_categories]> ydl_opts
  else ydl_opts.

Definition build_ydl_opts (item cfg : dict) : M W dict :=
  p <- lift (new_path (py_get_default cfg "output_dir" (VStr "downloads"))) ;;
  out_dir <- ask (path_resolve p) ;;
  act (path_mkdir out_dir) ;;;
  outtmpl <- lift (path_join out_dir (filename_template item cfg)) ;;
  let ydl_opts := default_opts item cfg outtmpl in
  requested <- lift (requested_type item) ;;
  ydl_opts <- lift (select_format item cfg requested ydl_opts) ;;
  let ydl_opts := throttle item cfg ydl_opts in
  let ydl_opts := sponsorblock item cfg ydl_opts in
  ret ydl_opts.

(** ** Progress reporting *)

Definition _progress_hook (d : dict) : M W unit :=
  if py_eq_str (py_get d "status") "downloading" then
    let p := py_or (py_get d "_percent_str") (VStr EmptyString) in
    let s := py_or (py_get d "_speed_str") (VStr EmptyString) in
    let eta := py_get d "eta" in
    p' <- lift (str_strip p) ;;
    s' <- lift (str_strip s) ;;
    emit (LogDownloading p' s' (py_str eta))
  else if py_eq_str (py_get d "status") "finished" then
    emit LogPostProcessing
  else ret tt.

(** ** Batch execution *)

(** [v.get]: only a dictionary has the method. *)
Definition as_dict (v : value) : exn + dict :=
  match v with
  | VDict d => inr d
  | _ => inl (AttributeError "get")
  end.

Definition download_item (item : value) (cfg : dict) : M W unit :=
  d <- lift (as_dict item) ;;
  let url := py_get d "url" in
  if negb (truthy url) then raise (ValueError "Every item must contain 'url'")
  else
    ydl_opts <- build_ydl_opts d cfg ;;
    emit (LogStart url) ;;;
    act (ydl_download ydl_opts url) ;;;
    emit LogDone.

(** The elements [enumerate(items, 1)] yields.  Keys of a dictionary come in
    the order of [map_to_list]. *)
Definition py_iter (v : value) : exn + list value :=
  match v with
  | VList l => inr l
  | VStr s =>
      inr (map (fun c => VStr (String c EmptyString)) (list_ascii_of_string s))
  | VDict d => inr (map (fun kv => VStr kv.1) (map_to_list d))
  | _ => inl (TypeError "enumerate")
  end.

(** [cfg.get("stop_on_error", False)] as the condition of an [if] *)
Definition stop_on_error (cfg : dict) : bool :=
  truthy (py_get_default cfg "stop_on_error" (VBool false)).

(** The [for] loop of [main]; [Some c] when the body executed [return c]. *)
Fixpoint for_items (cfg : dict) (n idx : nat) (items : list value)
  : M W (option Z) :=
  match items with
  | [] => ret None
  | item :: rest =>
      r <- try_except
             (emit (LogProcessing idx n) ;;;
              download_item item cfg ;;;
              ret None)
             (fun e =>
                emit (LogFailed idx e) ;;;
                if stop_on_error cfg then ret (Some 1%Z) else ret None) ;;
      match r with
      | Some c => ret (Some c)
      | None => for_items cfg n (S idx) rest
      end
  end.

Definition main (argv : list string) : M W Z :=
  if Nat.ltb (length argv) 2 then emit PrintUsage ;;; ret 2%Z
  else
    let config_path := default EmptyString (argv !! 1%nat) in
    found <- (fun s => (inr (path_exists config_path (world s)), s)) ;;
    if negb found then emit (PrintConfigNotFound config_path) ;;; ret 2%Z
    else
      loaded <- ask (load_json config_path) ;;
      cfg <- lift (as_dict loaded) ;;
      let items := py_or (py_get cfg "items") (VList []) in
      if negb (truthy items) then emit PrintNoItems ;;; ret 2%Z
      else
        l <- lift (py_iter items) ;;
        r <- for_items cfg (length l) 1 l ;;
        match r with
        | Some c => ret c
        | None => emit LogAllFinished ;;; ret 0%Z
        end.

End Program.

(** ** Reading the run *)

(** The per-item outcomes and the items taken up, read off the written
    events: an item is taken up when its "processing" line is logged, it
    succeeds when "Done." is logged and fails when "Failed item" is. *)
Inductive outcome :=
| Success
| Failure (idx : nat) (e : exn).

Definition outcome_of (ev : event) : option outcome :=
  match ev with
  | LogDone => Some Success
  | LogFailed idx e => Some (Failure idx e)
  | _ => None
  end.

Definition outcomes (tr : list event) : list outcome := omap outcome_of tr.

Definition attempt_of (ev : event) : option nat :=
  match ev with
  | LogProcessing idx _ => Some idx
  | _ => None
  end.

Definition attempted (tr : list event) : list nat := omap attempt_of tr.

Inductive terminal_status := CompletedAll | AbortedEarly.

(** exit code 0 after the loop ran to its end, 1 from the [return 1] of the
    handler *)
Definition status_of_exit (code : Z) : option terminal_status :=
  if Z.eqb code 0 then Some CompletedAll
  else if Z.eqb code 1 then Some AbortedEarly
  else None.

(** [s] after one more written event *)
Definition logged {W} (s : state W) (ev : event) : state W :=
  State (world s) (trace s ++ [ev]).

(** ** The overridable fields *)

Inductive field :=
| FilenameTemplate | Proxy | FfmpegLocation | Cookies
| ConcurrentFragments | ConvertToAudio | VideoFormat | Quality
| AudioFormat | AudioBitrate | RateLimit | RemoveSponsorSegments.

Definition field_key (f : field) : string :=
  match f with
  | FilenameTemplate => "filename_template"
  | Proxy => "proxy"
  | FfmpegLocation => "ffmpeg_location"
  | Cookies => "cookies"
  | ConcurrentFragments => "concurrent_fragments"
  | ConvertToAudio => "convert_to_audio"
  | VideoFormat => "video_format"
  | Quality => "quality"
  | AudioFormat => "audio_format"
  | AudioBitrate => "audio_bitrate"
  | RateLimit => "rate_limit"
  | RemoveSponsorSegments => "remove_sponsor_segments"
  end.

(** the value [build_ydl_opts] computes for the field *)
Definition merged (f : field) (item cfg : dict) : value :=
  match f with
  | FilenameTemplate => filename_template item cfg
  | Proxy => proxy item cfg
  | FfmpegLocation => ffmpeg_location item cfg
  | Cookies => cookiefile item cfg
  | ConcurrentFragments => concurrent_fragments item cfg
  | ConvertToAudio => convert_to_audio item cfg
  | VideoFormat => video_format item cfg
  | Quality => quality item cfg
  | AudioFormat => audio_format item cfg
  | AudioBitrate => audio_bitrate_value item cfg
  | RateLimit => rate_limit item cfg
  | RemoveSponsorSegments => remove_sponsor_segments item cfg
  end.

(** which of the two lookups the source uses: [d.get(k, ...)] or
    [d.get(k) or ...] *)
Definition by_key (f : field) : bool :=
  match f with
  | FilenameTemplate | Proxy | FfmpegLocation | Cookies => false
  | _ => true
  end.

(** The defaults of the specification's table; [VNone] for "none". *)
Definition spec_default (f : field) : value :=
  match f with
  | FilenameTemplate => VStr "%(title)s.%(ext)s"
  | ConcurrentFragments => VInt 5
  | ConvertToAudio => VBool false
  | VideoFormat => VStr "mp4"
  | Quality => VStr "best"
  | AudioFormat => VStr "mp3"
  | AudioBitrate => VInt 192
  | RemoveSponsorSegments => VBool false
  | Proxy | FfmpegLocation | Cookies | RateLimit => VNone
  end.

(** The merge in the specification's words: a value is present when its key
    is there and it is not null; the item's value if present, else the
    global one if present, else the default. *)
Definition spec_present (o : option value) : option value :=
  match o with
  | Some VNone | None => None
  | Some v => Some v
  end.

Definition spec_merge (f : field) (item cfg : dict) : value :=
  match spec_present (item !! field_key f) with
  | Some v => v
  | None =>
      match spec_present (cfg !! field_key f) with
      | Some v => v
      | None => spec_default f
      end
  end.

(** ** Statements of the specification *)

(** A value that is a string, or falsy (so that [v or ''] is a string). *)
Definition str_or_falsy (v : value) : bool :=
  match v with
  | VStr _ => true
  | _ => negb (truthy v)
  end.

(** The text reported for a percent or speed field of that kind. *)
Definition field_text (v : value) : string :=
  match v with
  | VStr t => strip t
  | _ => EmptyString
  end.

(** A progress event whose percent and speed, when it is a "downloading"
    event, are strings or falsy. *)
Definition well_formed_event (d : dict) : bool :=
  negb (py_eq_str (py_get d "status") "downloading")
  || (str_or_falsy (py_get d "_percent_str")
      && str_or_falsy (py_get d "_speed_str")).

Definition lowers_to_audio (v : value) : bool :=
  match v with
  | VStr t => String.eqb (lower t) "audio"
  | _ => false
  end.

(** The kind a string-or-falsy type value resolves to. *)
Definition kind_of (v : value) : string :=
  match v with
  | VStr t => if String.eqb t EmptyString then "video" else lower t
  | _ => "video"
  end.

Section Statements.
Context {W : Type} `{!Collaborators W}.

(** [main] got past its checks with configuration [cfg] and the non-empty
    list [items]. *)
Definition config_loaded (argv : list string) (s : state W) (cfg : dict)
    (items : list value) : Prop :=
  ∃ path, argv !! 1%nat = Some path
          ∧ path_exists path (world s) = true
          ∧ load_json path (world s) = inr (VDict cfg)
          ∧ cfg !! "items" = Some (VList items)
          ∧ items ≠ [].

(** "Any value other than video or audio is treated as video, not an
    error": a type that does not lower-case to "audio" resolves as the type
    "video" does. *)
Definition spec_kind_fallback : Prop :=
  ∀ (item cfg : dict) (v : value) (s : state W),
    item !! "type" = Some v → lowers_to_audio v = false →
    build_ydl_opts item cfg s
    = build_ydl_opts (<["type" := VStr "video"]> item) cfg s.

(** "No failure modes": the hook returns on every event. *)
Definition spec_progress_never_fails : Prop :=
  ∀ (d : dict) (s : state W), ∃ s', _progress_hook d s = (inr tt, s').

(** "Missing fields degrade to empty-string placeholders", for the ETA. *)
Definition spec_eta_placeholder : Prop :=
  ∀ (d : dict), d !! "eta" = None → py_str (py_get d "eta") = EmptyString.

(** "A missing URL aborts the whole run immediately, it is not a per-item
    outcome": after an item without URL no failure is recorded for it and
    the next item is not taken up. *)
Definition spec_invalid_url_aborts : Prop :=
  ∀ argv (s : state W) cfg items (i : nat) (d : dict) r s',
    config_loaded argv s cfg items →
    items !! i = Some (VDict d) →
    truthy (py_get d "url") = false →
    main argv s = (r, s') →
    (S (S i) ∉ attempted (trace s'))
    ∧ (∀ e, Failure (S i) e ∉ outcomes (trace s')).

End Statements.

(** ** A concrete run *)

(** Collaborators over a trivial world: every path resolves under [/srv],
    directories can be created, and the engine fails on one URL only. *)
Definition sample_load (p : string) : exn + value :=
  let broken : value := VDict {[ "url" := VStr "https://example.org/broken" ]} in
  let fine : value := VDict {[ "url" := VStr "https://example.org/fine" ]} in
  if String.eqb p "continue.json" then
    inr (VDict {[ "items" := VList [broken; fine] ]})
  else if String.eqb p "abort.json" then
    inr (VDict {[ "items" := VList [broken; fine]; "stop_on_error" := VBool true ]})
  else if String.eqb p "nourl.json" then
    inr (VDict {[ "items" := VList [VDict ∅; fine] ]})
  else inl (External "No such file").

Definition sample : Collaborators unit :=
  {| py_repr := fun _ => "<object>";
     path_resolve := fun p _ => inr ("/srv/" +:+ p);
     path_mkdir := fun _ w => (None, w);
     path_div := fun p q => p +:+ "/" +:+ q;
     path_exists := fun _ _ => true;
     load_json := fun p _ => sample_load p;
     ydl_download := fun _ url w =>
       if py_eq_str url "https://example.org/broken"
       then (Some (External "download failed"), w)
       else (None, w) |}.

Definition start : state unit := State tt [].

Definition sample_run (path : string) : (exn + Z) * state unit :=
  @main unit sample ["app.py"; path] start.

(** the options resolved for an item, [∅] when resolution raises *)
Definition sample_plan (item cfg : dict) : dict :=
  match (@build_ydl_opts unit sample item cfg start).1 with
  | inr opts => opts
  | inl _ => ∅
  end.

Definition broken_item : value :=
  VDict {[ "url" := VStr "https://example.org/broken" ]}.
Definition fine_item : value :=
  VDict {[ "url" := VStr "https://example.org/fine" ]}.

Definition audio_item : dict :=
  {[ "url" := VStr "https://example.org/fine";
     "type" := VStr "Audio";
     "audio_bitrate" := VInt 128 ]}.
Definition podcast_item : dict :=
  {[ "url" := VStr "https://example.org/fine"; "type" := VStr "Podcast" ]}.
Definition numeric_type_item : dict :=
  {[ "url" := VStr "https://example.org/fine"; "type" := VInt 7 ]}.
Definition selector_item : dict :=
  {[ "url" := VStr "https://example.org/fine"; "quality" := VStr "137+140" ]}.
Definition sponsor_cfg : dict := {[ "remove_sponsor_segments" := VBool true ]}.
Definition null_format_item : dict := {[ "video_format" := VNone ]}.
Definition mkv_cfg : dict := {[ "video_format" := VStr "mkv" ]}.

Definition downloading_event : dict :=
  {[ "status" := VStr "downloading";
     "_percent_str" := VStr " 12.5% ";
     "eta" := VInt 42 ]}.
Definition numeric_percent_event : dict :=
  {[ "status" := VStr "downloading"; "_percent_str" := VInt 42 ]}.

(** ** Keys read and keys written *)

(** The keys [build_ydl_opts] looks up in the item and in the global
    configuration. *)
Definition item_keys : list string :=
  ["filename_template"; "proxy"; "ffmpeg_location"; "cookies";
   "concurrent_fragments"; "type"; "convert_to_audio"; "video_format";
   "quality"; "audio_format"; "audio_bitrate"; "rate_limit";
   "remove_sponsor_segments"].

Definition cfg_keys : list string :=
  ["output_dir"; "filename_template"; "proxy"; "ffmpeg_location"; "cookies";
   "concurrent_fragments"; "convert_to_audio"; "video_format";
   "quality"; "audio_format"; "audio_bitrate"; "rate_limit";
   "remove_sponsor_segments"].

(** The keys the video branch alone looks up. *)
Definition video_only_keys : list string :=
  ["convert_to_audio"; "video_format"; "quality"].

(** The keys read for an item of kind audio: all but the video-only ones. *)
Definition audio_item_keys : list string :=
  ["filename_template"; "proxy"; "ffmpeg_location"; "cookies";
   "concurrent_fragments"; "type"; "audio_format"; "audio_bitrate";
   "rate_limit"; "remove_sponsor_segments"].

Definition audio_cfg_keys : list string :=
  ["output_dir"; "filename_template"; "proxy"; "ffmpeg_location"; "cookies";
   "concurrent_fragments"; "audio_format"; "audio_bitrate";
   "rate_limit"; "remove_sponsor_segments"].

(** Two dictionaries with the same entry, or none, under each key. *)
Definition agree_on (keys : list string) (d d' : dict) : Prop :=
  Forall (fun k => d !! k = d' !! k) keys.

(** The entries every plan has, and the entries [build_ydl_opts] writes
    under a condition. *)
Definition fixed_option_keys : list string :=
  ["outtmpl"; "noplaylist"; "quiet"; "progress_hooks"; "retries";
   "concurrent_fragment_downloads"; "format"].

Definition optional_option_keys : list string :=
  ["proxy"; "ffmpeg_location"; "cookiefile"; "merge_output_format";
   "postprocessors"; "ratelimit"; "sponsorblock_mark"].

(** a line written with [print] *)
Definition is_print (ev : event) : bool :=
  match ev with
  | PrintUsage | PrintConfigNotFound _ | PrintNoItems => true
  | _ => false
  end.

(** More inputs for the concrete run. *)
Definition convert_item : dict :=
  {[ "url" := VStr "https://example.org/fine";
     "convert_to_audio" := VBool true;
     "rate_limit" := VNone ]}.
Definition limit_cfg : dict :=
  {[ "rate_limit" := VInt 500000; "output_dir" := VStr "media" ]}.
Definition null_dir_cfg : dict := {[ "output_dir" := VNone ]}.
Definition finished_event : dict :=
  {[ "status" := VStr "finished"; "_percent_str" := VInt 100 ]}.
Definition relocated_item : dict := <["output_dir" := VStr "elsewhere"]> selector_item.
Definition typed_cfg : dict := <["type" := VStr "audio"]> sponsor_cfg.
Definition requalified_audio_item : dict :=
  <["quality" := VStr "137+140"]> (<["convert_to_audio" := VBool true]> audio_item).

(** The batch, item by item: [item_runs cfg n idx items s outs s'] when
    calling [download_item] on each item in turn, in the state the previous
    items and their log lines left, gives the outcomes [outs] and ends in
    [s']; a failure is logged under the index of its item. *)
Inductive item_runs {W : Type} `{!Collaborators W} (cfg : dict) (n : nat) :
    nat → list value → state W → list outcome → state W → Prop :=
| runs_nil idx s : item_runs cfg n idx [] s [] s
| runs_ok idx item rest s s1 outs s' :
    download_item item cfg (logged s (LogProcessing idx n)) = (inr tt, s1) →
    item_runs cfg n (S idx) rest s1 outs s' →
    item_runs cfg n idx (item :: rest) s (Success :: outs) s'
| runs_fail idx item rest s e s1 outs s' :
    download_item item cfg (logged s (LogProcessing idx n)) = (inl e, s1) →
    item_runs cfg n (S idx) rest (logged s1 (LogFailed idx e)) outs s' →
    item_runs cfg n idx (item :: rest) s (Failure idx e :: outs) s'.

Definition flac_item : dict :=
  {[ "url" := VStr "https://example.org/fine";
     "type" := VStr "audio";
     "audio_format" := VStr "flac" ]}.
Definition opus_cfg : dict :=
  {[ "audio_format" := VStr "opus"; "audio_bitrate" := VInt 256;
     "proxy" := VStr "socks5://127.0.0.1:9050"; "cookies" := VStr EmptyString ]}.

(** * Properties *)

Section Proofs.
Context {W : Type} `{!Collaborators W}.

(** ** Steps of the monad *)

Lemma bind_inr {A B} (m : M W A) (k : A → M W B) s b s' :
  bind m k s = (inr b, s') →
  ∃ a s1, m s = (inr a, s1) ∧ k a s1 = (inr b, s').
Proof.
  unfold bind. destruct (m s) as [[e|a] s1]; intros Hk; [discriminate|].
  by exists a, s1.
Qed.

Lemma lift_inr {A} (r : exn + A) (s s' : state W) a :
  lift r s = (inr a, s') → r = inr a ∧ s' = s.
Proof. unfold lift. by intros [= -> ->]. Qed.

Lemma ask_inr {A} (f : W → exn + A) s a s' :
  ask f s = (inr a, s') → f (world s) = inr a ∧ s' = s.
Proof. unfold ask. by intros [= -> ->]. Qed.

Lemma act_trace (f : W → option exn * W) s r s' :
  act f s = (r, s') → trace s' = trace s.
Proof.
  unfold act. destruct (f (world s)) as [[e|] w]; by intros [= <- <-].
Qed.

(** ** Shape of the resolved options *)

(** A successful resolution is the four stages applied in order. *)
Lemma build_ydl_opts_inv item cfg s opts s' :
  build_ydl_opts item cfg s = (inr opts, s') →
  ∃ outtmpl requested o,
    requested_type item = inr requested
    ∧ select_format item cfg requested (default_opts item cfg outtmpl) = inr o
    ∧ opts = sponsorblock item cfg (throttle item cfg o).
Proof.
  unfold build_ydl_opts. intros H.
  apply bind_inr in H as (p & s1 & _ & H).
  apply bind_inr in H as (out_dir & s2 & _ & H).
  apply bind_inr in H as (? & s3 & _ & H).
  apply bind_inr in H as (outtmpl & s4 & _ & H).
  apply bind_inr in H as (requested & s5 & Hreq & H).
  apply bind_inr in H as (o & s6 & Hsel & H).
  apply lift_inr in Hreq as [Hreq _]. apply lift_inr in Hsel as [Hsel _].
  injection H as <- _. by exists outtmpl, requested, o.
Qed.

(** Resolution writes no event. *)
Lemma build_ydl_opts_trace item cfg s r s' :
  build_ydl_opts item cfg s = (r, s') → trace s' = trace s.
Proof.
  unfold build_ydl_opts, bind, lift, ask, ret.
  destruct (new_path _) as [e|p]; [by intros [= <- <-]|].
  destruct (path_resolve _ _) as [e|out_dir]; [by intros [= <- <-]|]. simpl.
  destruct (act _ s) as [[e|[]] s1] eqn:Hact; apply act_trace in Hact;
    [by intros [= <- <-]|].
  destruct (path_join _ _) as [e|outtmpl]; [by intros [= <- <-]|].
  destruct (requested_type _) as [e|requested]; [by intros [= <- <-]|].
  destruct (select_format _ _ _ _) as [e|o]; by intros [= <- <-].
Qed.

Lemma default_opts_lookup item cfg outtmpl :
  default_opts item cfg outtmpl !! "noplaylist" = Some (VBool true)
  ∧ default_opts item cfg outtmpl !! "retries" = Some (VInt 10)
  ∧ default_opts item cfg outtmpl !! "format" = None
  ∧ default_opts item cfg outtmpl !! "merge_output_format" = None
  ∧ default_opts item cfg outtmpl !! "postprocessors" = None
  ∧ default_opts item cfg outtmpl !! "sponsorblock_mark" = None.
Proof.
  unfold default_opts, set_if_truthy.
  repeat case_match; by simplify_map_eq.
Qed.

Lemma throttle_lookup item cfg o k :
  k ≠ "ratelimit" → throttle item cfg o !! k = o !! k.
Proof. intros Hk. unfold throttle. case_match; by simplify_map_eq. Qed.

Lemma sponsorblock_lookup item cfg o k :
  k ≠ "sponsorblock_mark" → sponsorblock item cfg o !! k = o !! k.
Proof. intros Hk. unfold sponsorblock. case_match; by simplify_map_eq. Qed.

(** The last two stages leave every other key alone. *)
Lemma finish_lookup item cfg o k :
  k ≠ "ratelimit" → k ≠ "sponsorblock_mark" →
  sponsorblock item cfg (throttle item cfg o) !! k = o !! k.
Proof.
  intros. rewrite sponsorblock_lookup by done. by apply throttle_lookup.
Qed.

(** The audio branch. *)
Lemma select_format_audio item cfg o :
  select_format item cfg "audio" o =
    inr (<["postprocessors" :=
             VList [extract_audio (audio_format item cfg) (audio_bitrate item cfg)]]>
           (<["format" := VStr "bestaudio/best"]> o)).
Proof. reflexivity. Qed.

(** The video branch, for a dictionary that has no post-processor yet. *)
Lemma select_format_video item cfg requested o o' :
  requested ≠ "audio" →
  o !! "postprocessors" = None →
  select_format item cfg requested o = inr o' →
  o' !! "format" =
    Some (if py_eq_str (quality item cfg) "best"
          then VStr "bv*+ba/b" else quality item cfg)
  ∧ o' !! "merge_output_format" = Some (video_format item cfg)
  ∧ o' !! "postprocessors" =
      (if truthy (convert_to_audio item cfg)
       then Some (VList [extract_audio (audio_format item cfg)
                                       (audio_bitrate item cfg)])
       else None)
  ∧ ∀ k, k ≠ "format" → k ≠ "merge_output_format" → k ≠ "postprocessors" →
         o' !! k = o !! k.
Proof.
  intros Hreq Hpp. unfold select_format.
  apply String.eqb_neq in Hreq. rewrite Hreq.
  unfold setdefault, append_at.
  destruct (truthy (convert_to_audio item cfg)).
  - destruct (py_eq_str (quality item cfg) "best"); simplify_map_eq;
      intros [= <-]; (repeat split; [..|intros k ? ? ?]); by simplify_map_eq.
  - destruct (py_eq_str (quality item cfg) "best");
      intros [= <-]; (repeat split; [..|intros k ? ? ?]); by simplify_map_eq.
Qed.

(** The video branch cannot raise on the dictionary of defaults. *)
Lemma select_format_default_total item cfg requested outtmpl :
  ∃ o, select_format item cfg requested (default_opts item cfg outtmpl) = inr o.
Proof.
  unfold select_format. destruct (String.eqb requested "audio"); [by eexists|].
  destruct (truthy (convert_to_audio item cfg)); [|by eexists].
  unfold setdefault.
  destruct (default_opts_lookup item cfg outtmpl) as (_ & _ & _ & _ & Hpp & _).
  destruct (py_eq_str (quality item cfg) "best"); simplify_map_eq; by eexists.
Qed.

(** The kind of a type that is a string or falsy. *)
Lemma requested_type_kind_of (item : dict) :
  str_or_falsy (py_get item "type") = true →
  requested_type item = inr (kind_of (py_get item "type")).
Proof.
  unfold requested_type, py_or, kind_of, str_or_falsy.
  destruct (py_get item "type") as [| | | |t| | |] eqn:Hv; simpl;
    try (intros ->%negb_true_iff; reflexivity); try done.
  by destruct (String.eqb t EmptyString).
Qed.

Lemma kind_of_not_audio v :
  lowers_to_audio v = false → kind_of v ≠ "audio".
Proof.
  unfold lowers_to_audio, kind_of. destruct v as [| | | |t| | |]; try done.
  destruct (String.eqb t EmptyString); [done|]. by intros ?%String.eqb_neq.
Qed.

(** Resolution returns when the output directory is a string that resolves
    and can be created, the file name template is a string, and the type is
    a string or falsy. *)
Lemma build_ydl_opts_returns item cfg (s : state W) p out_dir w name :
  new_path (py_get_default cfg "output_dir" (VStr "downloads")) = inr p →
  path_resolve p (world s) = inr out_dir →
  path_mkdir out_dir (world s) = (None, w) →
  filename_template item cfg = VStr name →
  str_or_falsy (py_get item "type") = true →
  ∃ opts, build_ydl_opts item cfg s = (inr opts, State w (trace s)).
Proof.
  intros Hp Hres Hmk Hname Hty. apply requested_type_kind_of in Hty.
  destruct (select_format_default_total item cfg (kind_of (py_get item "type"))
              (path_div out_dir name)) as [o Ho].
  exists (sponsorblock item cfg (throttle item cfg o)).
  unfold build_ydl_opts, bind, lift, ask, act, ret.
  rewrite Hp, Hres. simpl. rewrite Hmk, Hname. simpl. by rewrite Hty, Ho.
Qed.

End Proofs.

(** ** Claims on option resolution *)

Section Resolution.
Context {W : Type} `{!Collaborators W}.

(** C10.  Whatever the item and the configuration, the resolved options hold
    [noplaylist = True] and [retries = 10]. *)
Theorem fixed_noplaylist_and_retries (item cfg : dict) (s s' : state W) opts :
  build_ydl_opts item cfg s = (inr opts, s') →
  opts !! "noplaylist" = Some (VBool true)
  ∧ opts !! "retries" = Some (VInt 10).
Proof.
  intros H. apply build_ydl_opts_inv in H as (outtmpl & requested & o & _ & Hsel & ->).
  rewrite !finish_lookup by done.
  destruct (default_opts_lookup item cfg outtmpl) as (Hnp & Hre & _ & _ & Hpp & _).
  destruct (decide (requested = "audio")) as [->|Hne].
  - rewrite select_format_audio in Hsel. injection Hsel as <-.
    by simplify_map_eq.
  - apply select_format_video in Hsel as (_ & _ & _ & Hk); [|done..].
    by rewrite !Hk.
Qed.





End Resolution.

(** ** Claims on the merge and on the kind *)

Section Merge.
Context {W : Type} `{!Collaborators W}.

Lemma py_get_insert_ne (item : dict) k k' v :
  k ≠ k' → py_get (<[k := v]> item) k' = py_get item k'.
Proof. intros. unfold py_get. by rewrite lookup_insert_ne. Qed.

Lemma py_get_default_insert_ne (item : dict) k k' v dflt :
  k ≠ k' → py_get_default (<[k := v]> item) k' dflt = py_get_default item k' dflt.
Proof. intros. unfold py_get_default. by rewrite lookup_insert_ne. Qed.

Lemma py_in_insert_ne (item : dict) k k' v :
  k ≠ k' → py_in k' (<[k := v]> item) = py_in k' item.
Proof. intros. unfold py_in. by rewrite lookup_insert_ne. Qed.

(** No overridable field reads the key [type]. *)
Lemma merged_insert_type f (item cfg : dict) v :
  merged f (<["type" := v]> item) cfg = merged f item cfg.
Proof.
  destruct f; simpl;
    unfold filename_template, proxy, ffmpeg_location, cookiefile,
      concurrent_fragments, convert_to_audio, video_format, quality,
      audio_format, audio_bitrate_value, rate_limit, remove_sponsor_segments;
    by rewrite ?py_get_insert_ne, ?py_get_default_insert_ne.
Qed.

Ltac forget_type f :=
  let H := fresh in
  pose proof (merged_insert_type f) as H; simpl in H; rewrite !H; clear H.

Lemma default_opts_insert_type (item cfg : dict) v outtmpl :
  default_opts (<["type" := v]> item) cfg outtmpl = default_opts item cfg outtmpl.
Proof.
  unfold default_opts.
  forget_type ConcurrentFragments. forget_type Proxy.
  forget_type FfmpegLocation. by forget_type Cookies.
Qed.

Lemma select_format_insert_type (item cfg : dict) v requested o :
  select_format (<["type" := v]> item) cfg requested o
  = select_format item cfg requested o.
Proof.
  unfold select_format, audio_bitrate.
  forget_type AudioFormat. forget_type AudioBitrate. forget_type Quality.
  forget_type VideoFormat. by forget_type ConvertToAudio.
Qed.

Lemma finish_insert_type (item cfg : dict) v o :
  sponsorblock (<["type" := v]> item) cfg (throttle (<["type" := v]> item) cfg o)
  = sponsorblock item cfg (throttle item cfg o).
Proof.
  unfold sponsorblock, throttle.
  forget_type RemoveSponsorSegments. forget_type RateLimit.
  by rewrite py_in_insert_ne.
Qed.

(** The format selection only asks whether the kind is ["audio"]. *)
Lemma select_format_not_audio (item cfg : dict) requested o :
  requested ≠ "audio" →
  select_format item cfg requested o = select_format item cfg "video" o.
Proof.
  intros Hne. unfold select_format. apply String.eqb_neq in Hne. by rewrite Hne.
Qed.

(** C6 (amended).  A type that is a string, or falsy, or absent, resolves to
    its lower-case form, ["video"] when empty, falsy or absent; when that is
    not ["audio"] the item resolves exactly as with type ["video"], with the
    video selector and the merge format.  A truthy type that is not a string
    makes the computation of the kind raise [AttributeError], and resolution
    then returns no plan. *)
Theorem kind_fallback_to_video (item cfg : dict) (s : state W) :
  (str_or_falsy (py_get item "type") = true →
   requested_type item = inr (kind_of (py_get item "type"))
   ∧ (lowers_to_audio (py_get item "type") = false →
      build_ydl_opts item cfg s
      = build_ydl_opts (<["type" := VStr "video"]> item) cfg s
      ∧ ∀ opts s', build_ydl_opts item cfg s = (inr opts, s') →
          opts !! "merge_output_format" = Some (video_format item cfg)
          ∧ opts !! "format"
            = Some (if py_eq_str (quality item cfg) "best"
                    then VStr "bv*+ba/b" else quality item cfg)))
  ∧ (str_or_falsy (py_get item "type") = false →
     requested_type item = inl (AttributeError "lower")
     ∧ ∀ opts s', build_ydl_opts item cfg s ≠ (inr opts, s')).
Proof.
  split.
  - intros Hstr. pose proof (requested_type_kind_of item Hstr) as Hreq.
    split; [done|]. intros Hna. apply kind_of_not_audio in Hna. split.
    + unfold build_ydl_opts.
      forget_type FilenameTemplate.
      rewrite Hreq.
      assert (requested_type (<["type" := VStr "video"]> item) = inr "video") as ->.
      { unfold requested_type, py_get. by rewrite lookup_insert_eq. }
      unfold bind, lift, ret.
      destruct (new_path _) as [e|p]; [done|].
      destruct (ask _ s) as [[e|out_dir] s1]; [done|].
      destruct (act _ s1) as [[e|[]] s2]; [done|].
      destruct (path_join _ _) as [e|outtmpl]; [done|].
      rewrite default_opts_insert_type, select_format_insert_type.
      rewrite (select_format_not_audio item cfg (kind_of _)) by done.
      destruct (select_format _ _ _ _) as [e|o]; [done|].
      by rewrite finish_insert_type.
    + intros opts s' H.
      apply build_ydl_opts_inv in H as (outtmpl & requested & o & Hreq' & Hsel & ->).
      rewrite Hreq in Hreq'. injection Hreq' as <-.
      rewrite !finish_lookup by done.
      destruct (default_opts_lookup item cfg outtmpl) as (_ & _ & _ & _ & Hpp & _).
      by apply select_format_video in Hsel as (Hf & Hm & _).
  - intros Hbad.
    assert (requested_type item = inl (AttributeError "lower")) as Hreq.
    { unfold requested_type, py_or, str_or_falsy in *.
      destruct (py_get item "type"); simpl in *; try done;
        apply negb_false_iff in Hbad; by rewrite Hbad. }
    split; [done|]. intros opts s' H.
    apply build_ydl_opts_inv in H as (? & ? & ? & Hreq' & _).
    by rewrite Hreq in Hreq'.
Qed.

(** C1 (amended).  Each field read with [d.get(k, ...)] is the item's value
    when the item has the key (whatever the value, null included), else the
    global value when the configuration has the key, else the default of the
    table.  Each field read with [d.get(k) or ...] is the item's value when
    it is truthy, else the global value when it is truthy, else the default
    for [filename_template] and the falsy global value for [proxy],
    [ffmpeg_location] and [cookies], whose option is then left out of the plan
    [build_ydl_opts] returns, as it is there with the merged value when
    that is truthy. *)
Theorem merge_by_lookup (f : field) (item cfg : dict) :
  merged f item cfg
  = (if by_key f then
       match item !! field_key f with
       | Some v => v
       | None =>
           match cfg !! field_key f with
           | Some v => v
           | None => spec_default f
           end
       end
     else if truthy (py_get item (field_key f)) then py_get item (field_key f)
     else if truthy (py_get cfg (field_key f)) then py_get cfg (field_key f)
     else match f with
          | FilenameTemplate => spec_default f
          | _ => py_get cfg (field_key f)
          end)
  ∧ (∀ outtmpl,
      default_opts item cfg outtmpl !! "proxy"
      = (if truthy (proxy item cfg) then Some (proxy item cfg) else None)
      ∧ default_opts item cfg outtmpl !! "ffmpeg_location"
        = (if truthy (ffmpeg_location item cfg)
           then Some (ffmpeg_location item cfg) else None)
      ∧ default_opts item cfg outtmpl !! "cookiefile"
        = (if truthy (cookiefile item cfg) then Some (cookiefile item cfg) else None))
  ∧ ∀ (s s' : state W) opts,
      build_ydl_opts item cfg s = (inr opts, s') →
      let pick k :=
        if truthy (py_get item k) then Some (py_get item k)
        else if truthy (py_get cfg k) then Some (py_get cfg k)
        else None in
      opts !! "proxy" = pick "proxy"
      ∧ opts !! "ffmpeg_location" = pick "ffmpeg_location"
      ∧ opts !! "cookiefile" = pick "cookies".
Proof.
  split; [|split].
  - destruct f; simpl;
      unfold filename_template, proxy, ffmpeg_location, cookiefile,
        concurrent_fragments, convert_to_audio, video_format, quality,
        audio_format, audio_bitrate_value, rate_limit, remove_sponsor_segments,
        py_or, py_get_default, py_get;
      repeat case_match; simplify_eq/=; try done; congruence.
  - intros outtmpl. unfold default_opts, set_if_truthy.
    repeat case_match; by simplify_map_eq.
  - intros s s' opts H pick.
    apply build_ydl_opts_inv in H as (outtmpl & requested & o & _ & Hsel & ->).
    rewrite !finish_lookup by done.
    assert (∀ k, k ≠ "format" → k ≠ "merge_output_format" →
                 k ≠ "postprocessors" →
                 o !! k = default_opts item cfg outtmpl !! k) as Hframe.
    { destruct (default_opts_lookup item cfg outtmpl)
        as (_ & _ & _ & _ & Hpp & _).
      destruct (decide (requested = "audio")) as [->|Hne].
      - rewrite select_format_audio in Hsel. injection Hsel as <-.
        intros k ? ? ?. by simplify_map_eq.
      - by apply select_format_video in Hsel as (_ & _ & _ & Hk). }
    rewrite !Hframe by done. unfold pick.
    unfold default_opts, set_if_truthy, proxy, ffmpeg_location, cookiefile,
      py_or.
    destruct (truthy (py_get item "proxy")) eqn:Hp1;
      destruct (truthy (py_get cfg "proxy")) eqn:Hp2;
      destruct (truthy (py_get item "ffmpeg_location")) eqn:Hf1;
      destruct (truthy (py_get cfg "ffmpeg_location")) eqn:Hf2;
      destruct (truthy (py_get item "cookies")) eqn:Hc1;
      destruct (truthy (py_get cfg "cookies")) eqn:Hc2;
      rewrite ?Hp1, ?Hp2, ?Hf1, ?Hf2, ?Hc1, ?Hc2;
      by simplify_map_eq.
Qed.

End Merge.

(** ** Claim on the progress hook *)

Section Progress.
Context {W : Type} `{!Collaborators W}.

Lemma str_strip_or_empty v :
  str_or_falsy v = true →
  str_strip (py_or v (VStr EmptyString)) = inr (field_text v).
Proof.
  unfold str_or_falsy, py_or.
  destruct v as [| | | |t| | |]; simpl; try (by intros ->%negb_true_iff); try done.
  intros _. destruct t; [done|]. reflexivity.
Qed.

Lemma str_strip_raises v :
  str_or_falsy v = false →
  str_strip (py_or v (VStr EmptyString)) = inl (AttributeError "strip").
Proof.
  unfold str_or_falsy, py_or.
  destruct v; simpl; try done; intros Hv%negb_false_iff; by rewrite Hv.
Qed.

(** C9 (amended).  The hook keeps no state and returns on every event whose
    status is not "downloading", and on every "downloading" event whose
    percent and speed are each a string, falsy or missing: such a
    "downloading" event writes one line with the stripped percent and speed,
    the empty string for a missing or falsy one, and with [str] of the ETA
    when the event has a non-null one; a "finished" event writes the
    post-processing line; any other event writes nothing.  A "downloading"
    event with a truthy percent or speed that is not a string makes the hook
    raise [AttributeError] and write nothing.  The world is untouched. *)
Theorem progress_hook_returns (d : dict) (s : state W) :
  (well_formed_event d = true →
   ∃ eta,
     _progress_hook d s
     = (inr tt,
        State (world s)
          (trace s ++
           if py_eq_str (py_get d "status") "downloading" then
             [LogDownloading (field_text (py_get d "_percent_str"))
                             (field_text (py_get d "_speed_str")) eta]
           else if py_eq_str (py_get d "status") "finished"
                then [LogPostProcessing]
           else []))
     ∧ ∀ v, d !! "eta" = Some v → v ≠ VNone → eta = py_str v)
  ∧ field_text (py_get (delete "_percent_str" d) "_percent_str") = EmptyString
  ∧ field_text (py_get (delete "_speed_str" d) "_speed_str") = EmptyString
  ∧ (∀ v, truthy v = false → field_text v = EmptyString)
  ∧ (well_formed_event d = false →
     py_get d "status" = VStr "downloading"
     ∧ _progress_hook d s = (inl (AttributeError "strip"), s)).
Proof.
  split_and!.
  - intros Hwf. exists (py_str (py_get d "eta")). split.
    + unfold _progress_hook, well_formed_event in *.
      destruct (py_eq_str (py_get d "status") "downloading"); simpl in Hwf.
      * apply andb_true_iff in Hwf as [Hp Hs].
        unfold bind, lift. by rewrite !str_strip_or_empty.
      * destruct (py_eq_str (py_get d "status") "finished"); [done|].
        unfold ret. rewrite app_nil_r. by destruct s.
    + intros v Hv _. unfold py_get. by rewrite Hv.
  - unfold py_get. by rewrite lookup_delete_eq.
  - unfold py_get. by rewrite lookup_delete_eq.
  - intros v Hv. destruct v as [| | | |t| | |]; try done.
    simpl in Hv. apply negb_false_iff, String.eqb_eq in Hv. by subst.
  - intros Hwf. unfold _progress_hook, well_formed_event in *.
    destruct (py_eq_str (py_get d "status") "downloading") eqn:Hst;
      simpl in Hwf; [|done].
    split.
    { destruct (py_get d "status"); try done. simpl in Hst.
      by apply String.eqb_eq in Hst as ->. }
    unfold bind, lift.
    apply andb_false_iff in Hwf as [Hp|Hs].
    + by rewrite (str_strip_raises _ Hp).
    + destruct (str_strip (py_or (py_get d "_percent_str") _)) as [e|p'] eqn:Hp.
      * unfold py_or, str_strip in Hp.
        destruct (truthy (py_get d "_percent_str")); [|done].
        destruct (py_get d "_percent_str"); by simplify_eq/=.
      * by rewrite (str_strip_raises _ Hs).
Qed.

End Progress.

(** ** Claims on the batch loop *)

Section Batch.
Context {W : Type} `{!Collaborators W}.

Lemma outcomes_app tr1 tr2 : outcomes (tr1 ++ tr2) = outcomes tr1 ++ outcomes tr2.
Proof. apply omap_app. Qed.

Lemma attempted_app tr1 tr2 : attempted (tr1 ++ tr2) = attempted tr1 ++ attempted tr2.
Proof. apply omap_app. Qed.

(** What one item adds to the trace: "Done." exactly when it succeeds, and
    neither a failure line nor a "processing" line. *)
Lemma download_item_trace item cfg (s s' : state W) r :
  download_item item cfg s = (r, s') →
  ∃ added, trace s' = trace s ++ added
           ∧ outcomes added = (if r is inr _ then [Success] else [])
           ∧ attempted added = [].
Proof.
  unfold download_item, bind, lift, raise.
  destruct (as_dict item) as [e|d].
  { intros [= <- <-]. exists []. by rewrite app_nil_r. }
  destruct (truthy (py_get d "url")); simpl.
  2:{ intros [= <- <-]. exists []. by rewrite app_nil_r. }
  destruct (build_ydl_opts d cfg s) as [[e|opts] s1] eqn:Hb;
    apply build_ydl_opts_trace in Hb.
  { intros [= <- <-]. exists []. by rewrite app_nil_r, Hb. }
  unfold emit at 1. simpl.
  match goal with |- context [act ?f ?st] =>
    destruct (act f st) as [[e|[]] s2] eqn:Hact; apply act_trace in Hact end;
    simpl in Hact.
  - intros [= <- <-]. exists [LogStart (py_get d "url")]. by rewrite Hact, Hb.
  - unfold emit. intros [= <- <-]. simpl.
    exists [LogStart (py_get d "url"); LogDone].
    by rewrite Hact, Hb, <-app_assoc.
Qed.

(** One turn of the loop. *)
Lemma for_items_cons cfg n idx item rest (s : state W) :
  for_items cfg n idx (item :: rest) s
  = match download_item item cfg (logged s (LogProcessing idx n)) with
    | (inr _, s1) => for_items cfg n (S idx) rest s1
    | (inl e, s1) =>
        if stop_on_error cfg then (inr (Some 1%Z), logged s1 (LogFailed idx e))
        else for_items cfg n (S idx) rest (logged s1 (LogFailed idx e))
    end.
Proof.
  simpl. unfold bind at 1. unfold try_except. unfold bind at 1.
  unfold emit at 1. fold (logged s (LogProcessing idx n)).
  unfold bind at 1.
  destruct (download_item item cfg _) as [[e|[]] s1]; [|done].
  unfold bind, emit, ret. fold (logged s1 (LogFailed idx e)).
  by destruct (stop_on_error cfg).
Qed.


(** Without [stop_on_error] the loop takes up every item, in order, records
    one outcome for each under its index, and does not return. *)
Lemma for_items_continue cfg n items :
  stop_on_error cfg = false →
  ∀ idx (s : state W), ∃ s' added,
    for_items cfg n idx items s = (inr None, s')
    ∧ trace s' = trace s ++ added
    ∧ attempted added = seq idx (length items)
    ∧ Forall2 (fun i o => o = Success ∨ ∃ e, o = Failure i e)
        (seq idx (length items)) (outcomes added).
Proof.
  intros Hstop. induction items as [|item rest IH]; intros idx s.
  { exists s, []. simpl. rewrite app_nil_r. by repeat split. }
  rewrite for_items_cons, Hstop.
  destruct (download_item item cfg _) as [[e|[]] s1] eqn:Hd;
    apply download_item_trace in Hd as (add1 & Ht1 & Ho1 & Ha1); simpl in Ht1.
  - destruct (IH (S idx) (logged s1 (LogFailed idx e)))
      as (s' & add2 & Hrun & Ht2 & Ha2 & Ho2).
    exists s', ([LogProcessing idx n] ++ add1 ++ [LogFailed idx e] ++ add2).
    split; [done|]. split.
    { rewrite Ht2. simpl. rewrite Ht1. by rewrite <-!app_assoc. }
    rewrite !attempted_app, !outcomes_app, Ha1, Ho1, Ha2. simpl.
    split; [done|]. constructor; [by right; exists e|done].
  - destruct (IH (S idx) s1) as (s' & add2 & Hrun & Ht2 & Ha2 & Ho2).
    exists s', ([LogProcessing idx n] ++ add1 ++ add2).
    split; [done|]. split.
    { rewrite Ht2, Ht1. by rewrite <-!app_assoc. }
    rewrite !attempted_app, !outcomes_app, Ha1, Ho1, Ha2. simpl.
    split; [done|]. constructor; [by left|done].
Qed.

(** Without [stop_on_error] the loop is the run of the items one by one, and
    what it records are the outcomes of that run. *)
Lemma for_items_runs cfg n items :
  stop_on_error cfg = false →
  ∀ idx (s : state W), ∃ outs s',
    item_runs cfg n idx items s outs s'
    ∧ for_items cfg n idx items s = (inr None, s')
    ∧ outcomes (trace s') = outcomes (trace s) ++ outs.
Proof.
  intros Hstop. induction items as [|item rest IH]; intros idx s.
  { exists [], s. rewrite app_nil_r. split; [constructor|done]. }
  rewrite for_items_cons, Hstop.
  destruct (download_item item cfg _) as [[e|[]] s1] eqn:Hd;
    pose proof (download_item_trace _ _ _ _ _ Hd) as (add1 & Ht1 & Ho1 & _);
    simpl in Ht1.
  - destruct (IH (S idx) (logged s1 (LogFailed idx e))) as (outs & s' & Hr & -> & Ho).
    exists (Failure idx e :: outs), s'. split; [by eapply runs_fail|].
    split; [done|]. rewrite Ho. simpl. rewrite Ht1.
    rewrite !outcomes_app, Ho1. simpl. by rewrite !app_nil_r, <-app_assoc.
  - destruct (IH (S idx) s1) as (outs & s' & Hr & -> & Ho).
    exists (Success :: outs), s'. split; [by eapply runs_ok|].
    split; [done|]. rewrite Ho, Ht1.
    rewrite !outcomes_app, Ho1. simpl. by rewrite !app_nil_r, <-app_assoc.
Qed.

(** [main] past its checks is the loop, then the closing line. *)
Lemma main_loaded argv (s : state W) cfg items :
  config_loaded argv s cfg items →
  main argv s
  = match for_items cfg (length items) 1 items s with
    | (inr (Some c), s') => (inr c, s')
    | (inr None, s') => (inr 0%Z, logged s' LogAllFinished)
    | (inl e, s') => (inl e, s')
    end.
Proof.
  intros (path & Hargv & Hex & Hload & Hitems & Hne).
  unfold main.
  assert (Nat.ltb (length argv) 2 = false) as ->.
  { apply Nat.ltb_ge. apply lookup_lt_Some in Hargv. lia. }
  rewrite Hargv. unfold bind, ask, lift, ret, emit, logged, py_or, py_get. simpl.
  rewrite Hex. simpl. rewrite Hload. simpl. rewrite Hitems.
  destruct items as [|item rest]; [done|]. cbn -[for_items length].
  by destruct (for_items _ _ _ _ s) as [[e|[c|]] s'].
Qed.

(** C3.  Without [stop_on_error], [main] takes up every item in order,
    records one outcome per item under the item's index and exits with 0
    (completed-all); for a batch of a failing and then a succeeding item the
    outcomes are the failure of item 1 and a success.  In general the
    recorded outcomes are those of calling [download_item] on each item in
    turn: a success where it returns, and where it raises [e] the failure
    [e] under the index of that item, after which the next item is run. *)
Theorem batch_continues argv (s : state W) cfg items :
  config_loaded argv s cfg items →
  stop_on_error cfg = false →
  (∃ s' added,
      main argv s = (inr 0%Z, s')
      ∧ status_of_exit 0 = Some CompletedAll
      ∧ trace s' = trace s ++ added
      ∧ attempted added = seq 1 (length items)
      ∧ Forall2 (fun i o => o = Success ∨ ∃ e, o = Failure i e)
          (seq 1 (length items)) (outcomes added))
  ∧ (∀ A B e s1 s2,
      items = [A; B] →
      download_item A cfg (logged s (LogProcessing 1 2)) = (inl e, s1) →
      download_item B cfg (logged (logged s1 (LogFailed 1 e)) (LogProcessing 2 2))
      = (inr tt, s2) →
      main argv s = (inr 0%Z, logged s2 LogAllFinished)
      ∧ outcomes (trace (logged s2 LogAllFinished))
        = outcomes (trace s) ++ [Failure 1 e; Success])
  ∧ ∃ outs s',
      item_runs cfg (length items) 1 items s outs s'
      ∧ main argv s = (inr 0%Z, logged s' LogAllFinished)
      ∧ outcomes (trace (logged s' LogAllFinished))
        = outcomes (trace s) ++ outs.
Proof.
  intros Hload Hstop. rewrite (main_loaded _ _ _ _ Hload). split; [|split].
  3:{ destruct (for_items_runs cfg (length items) items Hstop 1 s)
        as (outs & s' & Hr & -> & Ho).
      exists outs, s'. split; [done|]. split; [done|].
      simpl. by rewrite outcomes_app, Ho, app_nil_r. }
  - destruct (for_items_continue cfg (length items) items Hstop 1 s)
      as (s' & added & -> & Ht & Ha & Ho).
    exists (logged s' LogAllFinished), (added ++ [LogAllFinished]).
    split; [done|]. split; [done|]. split.
    { simpl. by rewrite Ht, <-app_assoc. }
    rewrite attempted_app, outcomes_app. simpl. by rewrite !app_nil_r.
  - intros A B e s1 s2 -> HA HB.
    cbn [length]. rewrite for_items_cons, HA, Hstop, for_items_cons, HB.
    cbn [for_items]. unfold ret. split; [done|].
    apply download_item_trace in HA as (addA & HtA & HoA & _).
    apply download_item_trace in HB as (addB & HtB & HoB & _).
    simpl in *. rewrite HtB, HtA.
    rewrite !outcomes_app, HoA, HoB. simpl. by rewrite !app_nil_r, <-app_assoc.
Qed.


(** C2 (amended).  An item whose URL is missing or falsy makes
    [download_item] raise [ValueError] before anything else happens; the
    loop catches it and records it as the failure of that item, then goes on
    with the next item, or returns 1 when [stop_on_error] is set. *)
Theorem missing_url_is_item_failure cfg n idx (d : dict) rest (s : state W) :
  truthy (py_get d "url") = false →
  let e := ValueError "Every item must contain 'url'" in
  let s1 := logged (logged s (LogProcessing idx n)) (LogFailed idx e) in
  download_item (VDict d) cfg s = (inl e, s)
  ∧ for_items cfg n idx (VDict d :: rest) s
    = (if stop_on_error cfg then (inr (Some 1%Z), s1)
       else for_items cfg n (S idx) rest s1).
Proof.
  intros Hurl e s1.
  assert (∀ s : state W, download_item (VDict d) cfg s = (inl e, s)) as Hd.
  { intros s2. unfold download_item, bind, lift. simpl. by rewrite Hurl. }
  split; [apply Hd|]. by rewrite for_items_cons, Hd.
Qed.

End Batch.

(** ** The claims on a concrete run *)

Lemma fixed_noplaylist_and_retries_witness :
  @build_ydl_opts unit sample audio_item sponsor_cfg start
  = (inr (sample_plan audio_item sponsor_cfg), start)
  ∧ sample_plan audio_item sponsor_cfg !! "noplaylist" = Some (VBool true)
  ∧ sample_plan audio_item sponsor_cfg !! "retries" = Some (VInt 10).
Proof.
  assert (@build_ydl_opts unit sample audio_item sponsor_cfg start
          = (inr (sample_plan audio_item sponsor_cfg), start)) as H
    by (vm_compute; reflexivity).
  split; [exact H|].
  exact (@fixed_noplaylist_and_retries unit sample _ _ _ _ _ H).
Defined.




Lemma kind_fallback_to_video_witness :
  str_or_falsy (py_get podcast_item "type") = true
  ∧ lowers_to_audio (py_get podcast_item "type") = false
  ∧ requested_type podcast_item = inr "podcast"
  ∧ @build_ydl_opts unit sample podcast_item ∅ start
    = @build_ydl_opts unit sample (<["type" := VStr "video"]> podcast_item) ∅ start.
Proof.
  assert (str_or_falsy (py_get podcast_item "type") = true) as Hs
    by (vm_compute; reflexivity).
  assert (lowers_to_audio (py_get podcast_item "type") = false) as Hl
    by (vm_compute; reflexivity).
  destruct (proj1 (@kind_fallback_to_video unit sample podcast_item ∅ start) Hs)
    as [Hk Hv].
  split; [exact Hs|]. split; [exact Hl|]. split; [exact Hk|].
  exact (proj1 (Hv Hl)).
Defined.

(** C6, as stated, fails: a truthy type that is not a string makes the
    resolution raise [AttributeError], which the type ["video"] does not. *)
Lemma kind_fallback_counterexample : ¬ @spec_kind_fallback unit sample.
Proof.
  intros Hspec.
  specialize (Hspec numeric_type_item ∅ (VInt 7) start eq_refl eq_refl).
  vm_compute in Hspec. discriminate Hspec.
Qed.

Lemma merge_by_lookup_witness :
  @build_ydl_opts unit sample flac_item opus_cfg start
  = (inr (sample_plan flac_item opus_cfg), start)
  ∧ sample_plan flac_item opus_cfg !! "proxy"
    = Some (VStr "socks5://127.0.0.1:9050")
  ∧ sample_plan flac_item opus_cfg !! "ffmpeg_location" = None
  ∧ sample_plan flac_item opus_cfg !! "cookiefile" = None.
Proof.
  assert (@build_ydl_opts unit sample flac_item opus_cfg start
          = (inr (sample_plan flac_item opus_cfg), start)) as H
    by (vm_compute; reflexivity).
  split; [exact H|].
  exact (proj2 (proj2 (@merge_by_lookup unit sample Proxy flac_item opus_cfg))
           start start _ H).
Defined.

(** C1, as stated, fails: a null in the item is returned as the merged value
    where the specification's merge falls through to the global value. *)
Lemma merge_counterexample :
  merged VideoFormat null_format_item mkv_cfg = VNone
  ∧ spec_merge VideoFormat null_format_item mkv_cfg = VStr "mkv"
  ∧ merged VideoFormat null_format_item mkv_cfg
    ≠ spec_merge VideoFormat null_format_item mkv_cfg.
Proof. split; [reflexivity|]. split; [reflexivity|]. discriminate. Qed.

Lemma progress_hook_returns_witness :
  well_formed_event downloading_event = true
  ∧ @_progress_hook unit sample downloading_event start
    = (inr tt, State tt [LogDownloading "12.5%" EmptyString "42"]).
Proof.
  assert (well_formed_event downloading_event = true) as Hwf
    by (vm_compute; reflexivity).
  split; [exact Hwf|].
  destruct (proj1 (@progress_hook_returns unit sample downloading_event start)
              Hwf) as (eta & Hrun & Heta).
  rewrite Hrun. rewrite (Heta (VInt 42) eq_refl); [reflexivity|discriminate].
Defined.

(** C9, as stated, fails: a truthy percent that is not a string makes the
    hook raise, and a missing ETA is reported as ["None"], not as an empty
    string. *)
Lemma progress_hook_counterexample :
  ¬ @spec_progress_never_fails unit sample ∧ ¬ @spec_eta_placeholder unit sample.
Proof.
  split.
  - intros Hspec. destruct (Hspec numeric_percent_event start) as [s' Hs'].
    vm_compute in Hs'. discriminate Hs'.
  - intros Hspec. specialize (Hspec ∅ eq_refl). vm_compute in Hspec.
    discriminate Hspec.
Qed.

Lemma nourl_loaded :
  @config_loaded unit sample ["app.py"; "nourl.json"] start
    {[ "items" := VList [VDict ∅; fine_item] ]} [VDict ∅; fine_item].
Proof. exists "nourl.json". by split_and!. Qed.

(** C2, as stated, fails: the item without URL gets a recorded failure and
    the second item is taken up. *)
Lemma invalid_url_counterexample : ¬ @spec_invalid_url_aborts unit sample.
Proof.
  intros Hspec.
  destruct (Hspec _ _ _ _ 0%nat ∅ (sample_run "nourl.json").1
              (sample_run "nourl.json").2 nourl_loaded eq_refl eq_refl)
    as [Hnext _].
  { unfold sample_run. by destruct (main _ _). }
  apply Hnext. vm_compute. by right; left.
Qed.

Lemma missing_url_is_item_failure_witness :
  truthy (py_get (∅ : dict) "url") = false
  ∧ @download_item unit sample (VDict ∅) ∅ start
    = (inl (ValueError "Every item must contain 'url'"), start)
  ∧ @for_items unit sample ∅ 2 1 [VDict ∅; fine_item] start
    = @for_items unit sample ∅ 2 2 [fine_item]
        (State tt [LogProcessing 1 2;
                   LogFailed 1 (ValueError "Every item must contain 'url'")]).
Proof.
  assert (truthy (py_get (∅ : dict) "url") = false) as Hurl by reflexivity.
  split; [exact Hurl|].
  exact (@missing_url_is_item_failure unit sample ∅ 2 1 ∅ [fine_item] start Hurl).
Defined.

Lemma continue_loaded :
  @config_loaded unit sample ["app.py"; "continue.json"] start
    {[ "items" := VList [broken_item; fine_item] ]} [broken_item; fine_item].
Proof. exists "continue.json". by split_and!. Defined.

Lemma abort_loaded :
  @config_loaded unit sample ["app.py"; "abort.json"] start
    {[ "items" := VList [broken_item; fine_item]; "stop_on_error" := VBool true ]}
    [broken_item; fine_item].
Proof. exists "abort.json". by split_and!. Defined.

Lemma batch_continues_witness :
  sample_run "continue.json"
  = (inr 0%Z,
     State tt [LogProcessing 1 2; LogStart (VStr "https://example.org/broken");
               LogFailed 1 (External "download failed");
               LogProcessing 2 2; LogStart (VStr "https://example.org/fine");
               LogDone; LogAllFinished])
  ∧ outcomes (trace (sample_run "continue.json").2)
    = [Failure 1 (External "download failed"); Success].
Proof.
  assert (stop_on_error {[ "items" := VList [broken_item; fine_item] ]} = false)
    as Hstop
    by (vm_compute; reflexivity).
  destruct (@batch_continues unit sample _ _ _ _ continue_loaded Hstop)
    as (_ & Htwo & _).
  destruct (Htwo broken_item fine_item (External "download failed")
              (State tt [LogProcessing 1 2;
                         LogStart (VStr "https://example.org/broken")])
              (State tt [LogProcessing 1 2;
                         LogStart (VStr "https://example.org/broken");
                         LogFailed 1 (External "download failed");
                         LogProcessing 2 2;
                         LogStart (VStr "https://example.org/fine"); LogDone])
              eq_refl) as [Hmain Hout].
  - vm_compute; reflexivity.
  - vm_compute; reflexivity.
  - unfold sample_run. rewrite Hmain. split; reflexivity.
Defined.


(** * Further properties of the program *)

(** ** The batch loop in general *)

Section Loop.
Context {W : Type} `{!Collaborators W}.

(** The loop never raises.  It takes up a prefix of the items, in order from
    [idx], and records one outcome for each of them; it either runs to the
    end, or returns 1 under [stop_on_error] right after a failure, all
    earlier outcomes being successes. *)
Lemma for_items_returns cfg n items :
  ∀ idx (s : state W), ∃ r s' added k,
    for_items cfg n idx items s = (inr r, s')
    ∧ trace s' = trace s ++ added
    ∧ (k ≤ length items)%nat
    ∧ attempted added = seq idx k
    ∧ Forall2 (fun i o => o = Success ∨ ∃ e, o = Failure i e)
        (seq idx k) (outcomes added)
    ∧ (r = None ∧ k = length items
       ∧ (stop_on_error cfg = true → Forall (eq Success) (outcomes added))
       ∨ r = Some 1%Z ∧ stop_on_error cfg = true
         ∧ ∃ pre e, outcomes added = pre ++ [Failure (idx + k - 1)%nat e]
                    ∧ Forall (eq Success) pre).
Proof.
  induction items as [|item rest IH]; intros idx s.
  { exists None, s, [], 0. simpl. rewrite app_nil_r.
    split_and!; try done. left. by split_and!. }
  rewrite for_items_cons.
  destruct (download_item item cfg _) as [[e|[]] s1] eqn:Hd;
    apply download_item_trace in Hd as (add1 & Ht1 & Ho1 & Ha1); simpl in Ht1.
  - destruct (stop_on_error cfg) eqn:Hstop.
    + exists (Some 1%Z), (logged s1 (LogFailed idx e)),
        ([LogProcessing idx n] ++ add1 ++ [LogFailed idx e]), 1.
      split; [done|]. split.
      { simpl. rewrite Ht1. by rewrite <-!app_assoc. }
      rewrite !attempted_app, !outcomes_app, Ha1, Ho1. simpl.
      split; [lia|]. split; [done|]. split.
      { constructor; [by right; exists e|constructor]. }
      right. split_and!; try done. exists [], e.
      replace (idx + 1 - 1) with idx by lia. by split.
    + destruct (IH (S idx) (logged s1 (LogFailed idx e)))
        as (r & s' & add2 & k & Hrun & Ht2 & Hk & Ha2 & Ho2 & Hr).
      exists r, s', ([LogProcessing idx n] ++ add1 ++ [LogFailed idx e] ++ add2),
        (S k).
      split; [done|]. split.
      { rewrite Ht2. simpl. rewrite Ht1. by rewrite <-!app_assoc. }
      rewrite !attempted_app, !outcomes_app, Ha1, Ho1, Ha2. simpl.
      split; [lia|]. split; [done|]. split.
      { constructor; [by right; exists e|done]. }
      destruct Hr as [(-> & -> & _)|(_ & ? & _)]; [|done].
      left. by split_and!.
  - destruct (IH (S idx) s1)
      as (r & s' & add2 & k & Hrun & Ht2 & Hk & Ha2 & Ho2 & Hr).
    exists r, s', ([LogProcessing idx n] ++ add1 ++ add2), (S k).
    split; [done|]. split.
    { rewrite Ht2, Ht1. by rewrite <-!app_assoc. }
    rewrite !attempted_app, !outcomes_app, Ha1, Ho1, Ha2. simpl.
    split; [lia|]. split; [done|]. split.
    { constructor; [by left|done]. }
    destruct Hr as [(-> & -> & Hall)|(-> & Hstop & pre & e & Hpre & Hall)].
    + left. split_and!; try done. intros Hstop. constructor; [done|by apply Hall].
    + right. split_and!; try done. exists (Success :: pre), e.
      replace (idx + S k - 1) with (S idx + k - 1) by lia.
      rewrite Hpre. split; [done|]. by constructor.
Qed.

(** X1.  Once the configuration is loaded with a non-empty list of items,
    [main] never raises: it returns 0, or 1 and then only under
    [stop_on_error]; every exception of an item stays inside the loop. *)
Theorem main_exit_code argv (s : state W) cfg items :
  config_loaded argv s cfg items →
  ∃ c s', main argv s = (inr c, s')
          ∧ (c = 0%Z ∨ c = 1%Z ∧ stop_on_error cfg = true).
Proof.
  intros Hload. rewrite (main_loaded _ _ _ _ Hload).
  destruct (for_items_returns cfg (length items) items 1 s)
    as (r & s' & added & k & -> & _ & _ & _ & _ & Hr).
  destruct Hr as [(-> & _)|(-> & Hstop & _)].
  - exists 0%Z, (logged s' LogAllFinished). split; [done|by left].
  - exists 1%Z, s'. split; [done|by right].
Qed.


(** X3.  Under [stop_on_error] the exit code is 1 exactly when a failure was
    recorded; the failure is then the last outcome and the only one, and
    with exit code 0 every item has the outcome success. *)
Theorem abort_iff_failure argv (s : state W) cfg items :
  config_loaded argv s cfg items →
  stop_on_error cfg = true →
  ∃ c s' added,
    main argv s = (inr c, s')
    ∧ trace s' = trace s ++ added
    ∧ (c = 1%Z ↔ ∃ i e, Failure i e ∈ outcomes added)
    ∧ (c = 1%Z → ∃ pre i e, outcomes added = pre ++ [Failure i e]
                             ∧ Forall (eq Success) pre)
    ∧ (c = 0%Z → outcomes added = replicate (length items) Success).
Proof.
  intros Hload Hstop. rewrite (main_loaded _ _ _ _ Hload).
  destruct (for_items_returns cfg (length items) items 1 s)
    as (r & s' & added & k & -> & Ht & Hk & Ha & Ho & Hr).
  destruct Hr as [(-> & -> & Hall)|(-> & _ & pre & e & Hpre & Hall)].
  - exists 0%Z, (logged s' LogAllFinished), (added ++ [LogAllFinished]).
    split; [done|]. split; [simpl; by rewrite Ht, <-app_assoc|].
    rewrite outcomes_app. simpl. rewrite app_nil_r.
    specialize (Hall Hstop). split_and!.
    + split; [done|]. intros (i & e & Hin).
      rewrite Forall_forall in Hall. by specialize (Hall _ Hin).
    + done.
    + intros _. apply Forall2_length in Ho. rewrite length_seq in Ho.
      rewrite Ho. clear -Hall. induction Hall as [|? ? <- _ IH]; [done|].
      simpl. by rewrite <-IH.
  - exists 1%Z, s', added. split; [done|]. split; [done|]. split_and!.
    + split; [|done]. intros _. exists (1 + k - 1), e. rewrite Hpre.
      apply elem_of_app. right. by left.
    + intros _. by exists pre, (1 + k - 1), e.
    + done.
Qed.

(** X4.  [main] returns 2 after one printed line, and nothing else, when
    the argument is missing, when the file does not exist, or when the
    configuration has no items (key missing, null, empty, or otherwise
    falsy): no item is taken up and the world is as before. *)
Theorem preflight_exit_2 argv (s : state W) :
  ((length argv < 2)%nat
   ∨ ∃ path, argv !! 1%nat = Some path
       ∧ (path_exists path (world s) = false
          ∨ path_exists path (world s) = true
            ∧ ∃ cfg, load_json path (world s) = inr (VDict cfg)
                     ∧ truthy (py_get cfg "items") = false)) →
  ∃ ev, is_print ev = true ∧ main argv s = (inr 2%Z, logged s ev).
Proof.
  intros [Hlen|(path & Hargv & Hcase)]; unfold main.
  - apply Nat.ltb_lt in Hlen. rewrite Hlen. by exists PrintUsage.
  - assert (Nat.ltb (length argv) 2 = false) as ->.
    { apply Nat.ltb_ge. apply lookup_lt_Some in Hargv. lia. }
    rewrite Hargv. unfold bind, ask, lift, ret, emit, logged, py_or. simpl.
    destruct Hcase as [Hex|(Hex & cfg & Hload & Hitems)]; rewrite Hex; simpl.
    + by exists (PrintConfigNotFound path).
    + rewrite Hload. simpl. rewrite Hitems. simpl. by exists PrintNoItems.
Qed.

(** X5.  A configuration that cannot be read, that is not an object, or
    whose items are a non-zero number or [true], is not answered with an
    exit code: [main] raises, before any item is taken up. *)
Theorem malformed_config_raises argv (s : state W) path :
  argv !! 1%nat = Some path →
  path_exists path (world s) = true →
  (∀ e, load_json path (world s) = inl e → main argv s = (inl e, s))
  ∧ (∀ v, load_json path (world s) = inr v → (∀ d, v ≠ VDict d) →
       main argv s = (inl (AttributeError "get"), s))
  ∧ (∀ cfg v, load_json path (world s) = inr (VDict cfg) →
       py_get cfg "items" = v → truthy v = true →
       (∀ l, v ≠ VList l) → (∀ t, v ≠ VStr t) → (∀ d, v ≠ VDict d) →
       main argv s = (inl (TypeError "enumerate"), s)).
Proof.
  intros Hargv Hex. unfold main.
  assert (Nat.ltb (length argv) 2 = false) as ->.
  { apply Nat.ltb_ge. apply lookup_lt_Some in Hargv. lia. }
  rewrite Hargv. unfold bind, ask, lift, ret, emit, logged, py_or. simpl.
  rewrite Hex. simpl. split_and!.
  - by intros e ->.
  - intros v -> Hv. destruct v; try done. by destruct (Hv d).
  - intros cfg v -> Hv Htr Hl Ht Hd. simpl. rewrite Hv, Htr. simpl.
    rewrite Htr. simpl.
    destruct v as [| | | |t|l|d|]; try done;
      exfalso; first [by eapply Ht|by eapply Hl|by eapply Hd].
Qed.

End Loop.

(** ** The resolved options in general *)

Section Plan.
Context {W : Type} `{!Collaborators W}.

(** A successful resolution, with the steps before the dictionary. *)
Lemma build_ydl_opts_inv_full item cfg (s s' : state W) opts :
  build_ydl_opts item cfg s = (inr opts, s') →
  ∃ p out_dir w name requested o,
    py_get_default cfg "output_dir" (VStr "downloads") = VStr p
    ∧ path_resolve p (world s) = inr out_dir
    ∧ path_mkdir out_dir (world s) = (None, w)
    ∧ filename_template item cfg = VStr name
    ∧ requested_type item = inr requested
    ∧ select_format item cfg requested
        (default_opts item cfg (path_div out_dir name)) = inr o
    ∧ opts = sponsorblock item cfg (throttle item cfg o)
    ∧ s' = State w (trace s).
Proof.
  unfold build_ydl_opts, bind, lift, ask, act, ret.
  destruct (py_get_default cfg "output_dir" _) as [| | | |p| | |] eqn:Hp;
    simpl; try done.
  destruct (path_resolve p (world s)) as [e|out_dir] eqn:Hres; [done|]. simpl.
  destruct (path_mkdir out_dir (world s)) as [[e|] w] eqn:Hmk; [done|].
  destruct (filename_template item cfg) as [| | | |name| | |] eqn:Hname;
    simpl; try done.
  destruct (requested_type item) as [e|requested] eqn:Hreq; [done|].
  destruct (select_format _ _ _ _) as [e|o] eqn:Hsel; [done|].
  intros [= <- <-]. by exists p, out_dir, w, name, requested, o.
Qed.

Lemma requested_type_str_or_falsy (item : dict) k :
  requested_type item = inr k → str_or_falsy (py_get item "type") = true.
Proof.
  unfold requested_type, py_or, str_or_falsy.
  destruct (py_get item "type") as [| |n|f| |l|d|]; simpl; try done.
  - by destruct b.
  - by destruct (negb (Z.eqb n 0)).
  - by destruct (negb (PrimFloat.eqb f 0)).
  - by destruct l.
  - by destruct (negb (bool_decide (d = ∅))).
Qed.

Lemma default_opts_base item cfg outtmpl :
  default_opts item cfg outtmpl !! "outtmpl" = Some (VStr outtmpl)
  ∧ default_opts item cfg outtmpl !! "quiet" = Some (VBool false)
  ∧ default_opts item cfg outtmpl !! "progress_hooks"
    = Some (VList [VFunc "_progress_hook"])
  ∧ default_opts item cfg outtmpl !! "concurrent_fragment_downloads"
    = Some (concurrent_fragments item cfg)
  ∧ default_opts item cfg outtmpl !! "ratelimit" = None.
Proof.
  unfold default_opts, set_if_truthy.
  repeat case_match; by simplify_map_eq.
Qed.

(** Every key but the three of the format selection passes through it. *)
Lemma select_format_frame item cfg requested o o' k :
  o !! "postprocessors" = None →
  select_format item cfg requested o = inr o' →
  k ≠ "format" → k ≠ "merge_output_format" → k ≠ "postprocessors" →
  o' !! k = o !! k.
Proof.
  intros Hpp Hsel ? ? ?.
  destruct (decide (requested = "audio")) as [->|Hne].
  - rewrite select_format_audio in Hsel. injection Hsel as <-.
    by simplify_map_eq.
  - apply select_format_video in Hsel as (_ & _ & _ & Hk); [|done..].
    by apply Hk.
Qed.

(** X6.  Resolution returns a plan exactly when the global output
    directory is a string (or absent) that resolves and can be created, the
    effective file name template is a string, and the item's type is a
    string, falsy or absent. *)
Theorem resolution_succeeds_iff (item cfg : dict) (s : state W) :
  (∃ opts s', build_ydl_opts item cfg s = (inr opts, s'))
  ↔ ∃ p out_dir w name,
      py_get_default cfg "output_dir" (VStr "downloads") = VStr p
      ∧ path_resolve p (world s) = inr out_dir
      ∧ path_mkdir out_dir (world s) = (None, w)
      ∧ filename_template item cfg = VStr name
      ∧ str_or_falsy (py_get item "type") = true.
Proof.
  split.
  - intros (opts & s' & H).
    apply build_ydl_opts_inv_full in H
      as (p & out_dir & w & name & k & o & Hp & Hres & Hmk & Hname & Hk & _).
    exists p, out_dir, w, name. split_and!; try done.
    by eapply requested_type_str_or_falsy.
  - intros (p & out_dir & w & name & Hp & Hres & Hmk & Hname & Hty).
    destruct (build_ydl_opts_returns item cfg s p out_dir w name)
      as [opts Hb]; try done.
    + by rewrite Hp.
    + by exists opts, (State w (trace s)).
Qed.

(** X7.  In a resolved plan the output template is the effective file name
    template under the resolved global output directory, the fragment
    concurrency is the effective [concurrent_fragments], [quiet] is false
    and the only progress hook is [_progress_hook]; the one effect of the
    resolution is the creation of that directory, and nothing is written. *)
Theorem plan_base_entries (item cfg : dict) (s s' : state W) opts :
  build_ydl_opts item cfg s = (inr opts, s') →
  ∃ p out_dir name,
    py_get_default cfg "output_dir" (VStr "downloads") = VStr p
    ∧ path_resolve p (world s) = inr out_dir
    ∧ filename_template item cfg = VStr name
    ∧ opts !! "outtmpl" = Some (VStr (path_div out_dir name))
    ∧ opts !! "concurrent_fragment_downloads"
      = Some (concurrent_fragments item cfg)
    ∧ opts !! "quiet" = Some (VBool false)
    ∧ opts !! "progress_hooks" = Some (VList [VFunc "_progress_hook"])
    ∧ s' = State (path_mkdir out_dir (world s)).2 (trace s).
Proof.
  intros H.
  apply build_ydl_opts_inv_full in H
    as (p & out_dir & w & name & k & o & Hp & Hres & Hmk & Hname & Hk & Hsel
        & -> & ->).
  exists p, out_dir, name. rewrite !finish_lookup by done.
  destruct (default_opts_lookup item cfg (path_div out_dir name))
    as (_ & _ & _ & _ & Hpp & _).
  destruct (default_opts_base item cfg (path_div out_dir name))
    as (Ho & Hq & Hh & Hc & _).
  rewrite !(select_format_frame _ _ _ _ _ _ Hpp Hsel) by done.
  rewrite Hmk. by split_and!.
Qed.

(** X8.  For a kind other than audio a truthy effective [convert_to_audio]
    gives exactly one post-processor, the audio extraction with the
    effective audio format and bitrate, next to the merge format; otherwise
    the plan has no post-processor. *)
Theorem video_convert_plan (item cfg : dict) (s s' : state W) opts kind :
  requested_type item = inr kind → kind ≠ "audio" →
  build_ydl_opts item cfg s = (inr opts, s') →
  opts !! "postprocessors"
  = (if truthy (convert_to_audio item cfg)
     then Some (VList [VDict {[ "key" := VStr "FFmpegExtractAudio";
                                "preferredcodec" := audio_format item cfg;
                                "preferredquality" :=
                                  VStr (py_str (audio_bitrate_value item cfg)) ]}])
     else None)
  ∧ opts !! "merge_output_format" = Some (video_format item cfg).
Proof.
  intros Hkind Hne H.
  apply build_ydl_opts_inv in H as (outtmpl & requested & o & Hreq & Hsel & ->).
  rewrite Hkind in Hreq. injection Hreq as <-.
  rewrite !finish_lookup by done.
  destruct (default_opts_lookup item cfg outtmpl) as (_ & _ & _ & _ & Hpp & _).
  by apply select_format_video in Hsel as (_ & Hm & Hp & _).
Qed.

(** X9.  The plan has a rate limit exactly when the item or the global
    configuration has the key [rate_limit]; the value is the item's when the
    item has the key, a null included, and the global one otherwise. *)
Theorem ratelimit_entry (item cfg : dict) (s s' : state W) opts :
  build_ydl_opts item cfg s = (inr opts, s') →
  opts !! "ratelimit"
  = match item !! "rate_limit" with
    | Some v => Some v
    | None => cfg !! "rate_limit"
    end.
Proof.
  intros H.
  apply build_ydl_opts_inv in H as (outtmpl & requested & o & Hreq & Hsel & ->).
  rewrite sponsorblock_lookup by done.
  destruct (default_opts_lookup item cfg outtmpl) as (_ & _ & _ & _ & Hpp & _).
  destruct (default_opts_base item cfg outtmpl) as (_ & _ & _ & _ & Hrl).
  assert (o !! "ratelimit" = None) as Ho
    by (by rewrite (select_format_frame _ _ _ _ _ _ Hpp Hsel)).
  unfold throttle, py_in, rate_limit, py_get_default, py_get.
  destruct (item !! "rate_limit") as [v|] eqn:Hi;
    destruct (cfg !! "rate_limit") as [v'|] eqn:Hc; simpl;
    repeat case_bool_decide; simpl; try by simplify_map_eq.
  all: exfalso; naive_solver.
Qed.

End Plan.

(** ** Keys of the plan, keys of the configuration *)

Section Keys.
Context {W : Type} `{!Collaborators W}.

Ltac in_list := by repeat constructor.

Lemma default_opts_keys item cfg outtmpl k :
  is_Some (default_opts item cfg outtmpl !! k) →
  k ∈ ["outtmpl"; "noplaylist"; "quiet"; "progress_hooks"; "retries";
       "concurrent_fragment_downloads"; "proxy"; "ffmpeg_location";
       "cookiefile"].
Proof.
  unfold default_opts, set_if_truthy. intros Hk.
  repeat case_match;
    repeat (apply lookup_insert_is_Some in Hk as [<-|[_ Hk]]; [in_list|]);
    destruct (decide ("concurrent_fragment_downloads" = k)) as [<-|Hne];
    try in_list; rewrite lookup_singleton_ne in Hk by done;
    by destruct Hk.
Qed.

Lemma format_is_set item cfg requested o o' :
  o !! "postprocessors" = None →
  select_format item cfg requested o = inr o' →
  is_Some (o' !! "format").
Proof.
  intros Hpp Hsel. destruct (decide (requested = "audio")) as [->|Hne].
  - rewrite select_format_audio in Hsel. injection Hsel as <-.
    by simplify_map_eq.
  - apply select_format_video in Hsel as (-> & _); done.
Qed.

(** X10.  A resolved plan always has the seven entries [outtmpl],
    [noplaylist], [quiet], [progress_hooks], [retries],
    [concurrent_fragment_downloads] and [format], and beyond them only
    [proxy], [ffmpeg_location], [cookiefile], [merge_output_format],
    [postprocessors], [ratelimit] and [sponsorblock_mark]: no other key of
    the configuration reaches the engine. *)
Theorem plan_keys (item cfg : dict) (s s' : state W) opts :
  build_ydl_opts item cfg s = (inr opts, s') →
  (∀ k, k ∈ fixed_option_keys → is_Some (opts !! k))
  ∧ (∀ k, is_Some (opts !! k) →
          k ∈ fixed_option_keys ++ optional_option_keys).
Proof.
  intros H.
  apply build_ydl_opts_inv in H as (outtmpl & requested & o & _ & Hsel & ->).
  destruct (default_opts_lookup item cfg outtmpl)
    as (Hnp & Hre & _ & _ & Hpp & _).
  destruct (default_opts_base item cfg outtmpl) as (Ho & Hq & Hh & Hc & _).
  assert (∀ k, k ≠ "format" → k ≠ "merge_output_format" →
               k ≠ "postprocessors" →
               o !! k = default_opts item cfg outtmpl !! k) as Hframe
    by (intros; by eapply select_format_frame).
  split.
  - intros k Hk. unfold fixed_option_keys in Hk.
    repeat (apply elem_of_cons in Hk as [->|Hk]);
      [..|by apply elem_of_nil in Hk];
      rewrite finish_lookup by done;
      try (rewrite Hframe by done; by eexists).
    exact (format_is_set _ _ _ _ _ Hpp Hsel).
  - intros k Hk. unfold fixed_option_keys, optional_option_keys. simpl.
    destruct (decide (k = "ratelimit")) as [->|?]; [in_list|].
    destruct (decide (k = "sponsorblock_mark")) as [->|?]; [in_list|].
    rewrite finish_lookup in Hk by done.
    destruct (decide (k = "format")) as [->|?]; [in_list|].
    destruct (decide (k = "merge_output_format")) as [->|?]; [in_list|].
    destruct (decide (k = "postprocessors")) as [->|?]; [in_list|].
    rewrite Hframe in Hk by done. apply default_opts_keys in Hk.
    repeat (apply elem_of_cons in Hk as [->|Hk]); in_list.
Qed.

Ltac use_agreement :=
  unfold agree_on in *;
  repeat match goal with
         | H : Forall _ (_ :: _) |- _ => apply Forall_cons in H as [? H]
         | H : Forall _ [] |- _ => clear H
         end;
  unfold build_ydl_opts, default_opts, select_format, throttle, sponsorblock,
    requested_type, filename_template, proxy, ffmpeg_location, cookiefile,
    concurrent_fragments, convert_to_audio, video_format, quality,
    audio_format, audio_bitrate, audio_bitrate_value, rate_limit,
    remove_sponsor_segments, py_in, py_get, py_get_default;
  repeat match goal with
         | H : _ !! _ = _ !! _ |- _ => rewrite ?H; clear H
         end.

(** X11.  Resolution depends on the item and on the global configuration
    only through the keys it looks up: two items that agree on the thirteen
    item keys and two configurations that agree on the thirteen global keys
    resolve alike.  So [output_dir] in an item, and [type] in the global
    configuration, have no effect. *)
Theorem resolution_reads_only (item item' cfg cfg' : dict) (s : state W) :
  agree_on item_keys item item' →
  agree_on cfg_keys cfg cfg' →
  build_ydl_opts item cfg s = build_ydl_opts item' cfg' s.
Proof. unfold item_keys, cfg_keys. intros Hi Hc. by use_agreement. Qed.

(** X12.  For an item of kind audio the video options [quality],
    [video_format] and [convert_to_audio] have no effect, in either scope:
    agreement on the other keys is enough for the same resolution. *)
Theorem audio_ignores_video_options (item item' cfg cfg' : dict) (s : state W) :
  requested_type item = inr "audio" →
  agree_on audio_item_keys item item' →
  agree_on audio_cfg_keys cfg cfg' →
  build_ydl_opts item cfg s = build_ydl_opts item' cfg' s.
Proof.
  unfold audio_item_keys, audio_cfg_keys. intros Hk Hi Hc.
  assert (requested_type item' = inr "audio") as Hk'.
  { rewrite <-Hk. unfold agree_on in Hi. rewrite !Forall_cons in Hi.
    unfold requested_type, py_get. by destruct Hi as (_&_&_&_&_& <- &_). }
  unfold build_ydl_opts. rewrite Hk, Hk'. unfold bind, lift.
  cbn beta iota. unfold select_format.
  change (String.eqb "audio" "audio") with true. cbn iota.
  clear Hk Hk'. by use_agreement.
Qed.

(** X13.  A truthy type that is not a string makes resolution raise
    [AttributeError] only after the output directory has been created: the
    failed resolution leaves the world of [mkdir] behind. *)
Theorem bad_type_raises_after_mkdir (item cfg : dict) (s : state W)
    p out_dir w name :
  py_get_default cfg "output_dir" (VStr "downloads") = VStr p →
  path_resolve p (world s) = inr out_dir →
  path_mkdir out_dir (world s) = (None, w) →
  filename_template item cfg = VStr name →
  str_or_falsy (py_get item "type") = false →
  build_ydl_opts item cfg s = (inl (AttributeError "lower"), State w (trace s)).
Proof.
  intros Hp Hres Hmk Hname Hty.
  unfold build_ydl_opts, bind, lift, ask, act, ret.
  rewrite Hp. simpl. rewrite Hres. simpl. rewrite Hmk, Hname. simpl.
  unfold requested_type, py_or, str_or_falsy in *.
  destruct (py_get item "type"); simpl in *; try done;
    apply negb_false_iff in Hty; by rewrite Hty.
Qed.

(** X15.  Whatever the event, and also when it raises, the progress hook
    leaves the world alone and writes at most one line, none when it raises
    and none for a status other than "downloading" and "finished". *)
Theorem progress_hook_frame (d : dict) (s s' : state W) r :
  _progress_hook d s = (r, s') →
  world s' = world s
  ∧ ∃ added, trace s' = trace s ++ added
             ∧ (length added ≤ 1)%nat
             ∧ (r ≠ inr tt → added = [])
             ∧ (py_eq_str (py_get d "status") "downloading" = false →
                py_eq_str (py_get d "status") "finished" = false →
                added = [] ∧ r = inr tt).
Proof.
  unfold _progress_hook, bind, lift, emit, ret.
  destruct (py_eq_str (py_get d "status") "downloading").
  - destruct (str_strip (py_or (py_get d "_percent_str") _)) as [e|p'].
    { intros [= <- <-]. split; [done|]. exists []. rewrite app_nil_r.
      split_and!; [done|simpl; lia|done..]. }
    destruct (str_strip (py_or (py_get d "_speed_str") _)) as [e|s2].
    { intros [= <- <-]. split; [done|]. exists []. rewrite app_nil_r.
      split_and!; [done|simpl; lia|done..]. }
    intros [= <- <-]. split; [done|]. eexists [_]. simpl. split_and!; [done|simpl; lia|done..].
  - destruct (py_eq_str (py_get d "status") "finished").
    + intros [= <- <-]. split; [done|]. eexists [_]. simpl. split_and!; [done|simpl; lia|done..].
    + intros [= <- <-]. split; [done|]. exists []. rewrite app_nil_r.
      split_and!; [done|simpl; lia|done..].
Qed.

End Keys.

(** ** The further properties on a concrete run *)

Lemma main_exit_code_witness :
  @config_loaded unit sample ["app.py"; "abort.json"] start
    {[ "items" := VList [broken_item; fine_item]; "stop_on_error" := VBool true ]}
    [broken_item; fine_item]
  ∧ ∃ c s', sample_run "abort.json" = (inr c, s')
            ∧ (c = 0%Z
               ∨ c = 1%Z
                 ∧ stop_on_error {[ "items" := VList [broken_item; fine_item];
                                    "stop_on_error" := VBool true ]} = true).
Proof.
  split; [exact abort_loaded|].
  exact (@main_exit_code unit sample _ _ _ _ abort_loaded).
Defined.


Lemma abort_iff_failure_witness :
  stop_on_error {[ "items" := VList [broken_item; fine_item];
                   "stop_on_error" := VBool true ]} = true
  ∧ ∃ c s' added,
      sample_run "abort.json" = (inr c, s')
      ∧ trace s' = trace start ++ added
      ∧ (c = 1%Z ↔ ∃ i e, Failure i e ∈ outcomes added)
      ∧ (c = 1%Z → ∃ pre i e, outcomes added = pre ++ [Failure i e]
                               ∧ Forall (eq Success) pre)
      ∧ (c = 0%Z → outcomes added = replicate 2 Success).
Proof.
  assert (stop_on_error {[ "items" := VList [broken_item; fine_item];
                           "stop_on_error" := VBool true ]} = true) as Hstop
    by (vm_compute; reflexivity).
  split; [exact Hstop|].
  exact (@abort_iff_failure unit sample _ _ _ _ abort_loaded Hstop).
Defined.

Lemma preflight_exit_2_witness :
  (length ["app.py"] < 2)%nat
  ∧ ∃ ev, is_print ev = true
          ∧ @main unit sample ["app.py"] start = (inr 2%Z, logged start ev).
Proof.
  assert (length ["app.py"] < 2)%nat as Hlen by (simpl; lia).
  split; [exact Hlen|].
  exact (@preflight_exit_2 unit sample ["app.py"] start (or_introl Hlen)).
Defined.

Lemma malformed_config_raises_witness :
  ["app.py"; "missing.json"] !! 1%nat = Some "missing.json"
  ∧ @path_exists unit sample "missing.json" (world start) = true
  ∧ sample_run "missing.json" = (inl (External "No such file"), start).
Proof.
  assert (["app.py"; "missing.json"] !! 1%nat = Some "missing.json") as Ha
    by reflexivity.
  assert (@path_exists unit sample "missing.json" (world start) = true) as He
    by reflexivity.
  split; [exact Ha|]. split; [exact He|].
  destruct (@malformed_config_raises unit sample _ start _ Ha He) as (Hraise & _).
  apply Hraise. reflexivity.
Defined.

Lemma resolution_succeeds_iff_witness :
  (∃ p out_dir w name,
      py_get_default limit_cfg "output_dir" (VStr "downloads") = VStr p
      ∧ @path_resolve unit sample p (world start) = inr out_dir
      ∧ @path_mkdir unit sample out_dir (world start) = (None, w)
      ∧ filename_template convert_item limit_cfg = VStr name
      ∧ str_or_falsy (py_get convert_item "type") = true)
  ∧ ∃ opts s', @build_ydl_opts unit sample convert_item limit_cfg start
               = (inr opts, s').
Proof.
  assert (∃ p out_dir w name,
      py_get_default limit_cfg "output_dir" (VStr "downloads") = VStr p
      ∧ @path_resolve unit sample p (world start) = inr out_dir
      ∧ @path_mkdir unit sample out_dir (world start) = (None, w)
      ∧ filename_template convert_item limit_cfg = VStr name
      ∧ str_or_falsy (py_get convert_item "type") = true) as Hcond.
  { exists "media", "/srv/media", tt, "%(title)s.%(ext)s".
    repeat split; vm_compute; reflexivity. }
  split; [exact Hcond|].
  exact (proj2 (@resolution_succeeds_iff unit sample convert_item limit_cfg start)
           Hcond).
Defined.

Lemma convert_item_resolved :
  @build_ydl_opts unit sample convert_item limit_cfg start
  = (inr (sample_plan convert_item limit_cfg), start).
Proof. vm_compute. reflexivity. Defined.

Lemma plan_base_entries_witness :
  @build_ydl_opts unit sample convert_item limit_cfg start
  = (inr (sample_plan convert_item limit_cfg), start)
  ∧ ∃ p out_dir name,
      py_get_default limit_cfg "output_dir" (VStr "downloads") = VStr p
      ∧ @path_resolve unit sample p (world start) = inr out_dir
      ∧ filename_template convert_item limit_cfg = VStr name
      ∧ sample_plan convert_item limit_cfg !! "outtmpl"
        = Some (VStr (@path_div unit sample out_dir name))
      ∧ sample_plan convert_item limit_cfg !! "concurrent_fragment_downloads"
        = Some (concurrent_fragments convert_item limit_cfg)
      ∧ sample_plan convert_item limit_cfg !! "quiet" = Some (VBool false)
      ∧ sample_plan convert_item limit_cfg !! "progress_hooks"
        = Some (VList [VFunc "_progress_hook"])
      ∧ start = State (@path_mkdir unit sample out_dir (world start)).2
                  (trace start).
Proof.
  split; [exact convert_item_resolved|].
  exact (@plan_base_entries unit sample _ _ _ _ _ convert_item_resolved).
Defined.

Lemma video_convert_plan_witness :
  requested_type convert_item = inr "video"
  ∧ "video" ≠ "audio"
  ∧ sample_plan convert_item limit_cfg !! "postprocessors"
    = Some (VList [VDict {[ "key" := VStr "FFmpegExtractAudio";
                            "preferredcodec" := VStr "mp3";
                            "preferredquality" := VStr "192" ]}])
  ∧ sample_plan convert_item limit_cfg !! "merge_output_format"
    = Some (VStr "mp4").
Proof.
  assert (requested_type convert_item = inr "video") as Hk
    by (vm_compute; reflexivity).
  assert ("video" ≠ "audio") as Hne by discriminate.
  split; [exact Hk|]. split; [exact Hne|].
  exact (@video_convert_plan unit sample _ _ _ _ _ _ Hk Hne convert_item_resolved).
Defined.

Lemma ratelimit_entry_witness :
  sample_plan convert_item limit_cfg !! "ratelimit" = Some VNone.
Proof.
  exact (@ratelimit_entry unit sample _ _ _ _ _ convert_item_resolved).
Defined.

Lemma plan_keys_witness :
  (∀ k, k ∈ fixed_option_keys →
        is_Some (sample_plan convert_item limit_cfg !! k))
  ∧ (∀ k, is_Some (sample_plan convert_item limit_cfg !! k) →
          k ∈ fixed_option_keys ++ optional_option_keys).
Proof.
  exact (@plan_keys unit sample _ _ _ _ _ convert_item_resolved).
Defined.

Lemma resolution_reads_only_witness :
  agree_on item_keys selector_item relocated_item
  ∧ agree_on cfg_keys sponsor_cfg typed_cfg
  ∧ @build_ydl_opts unit sample selector_item sponsor_cfg start
    = @build_ydl_opts unit sample relocated_item typed_cfg start.
Proof.
  assert (agree_on item_keys selector_item relocated_item) as Hi
    by (repeat constructor).
  assert (agree_on cfg_keys sponsor_cfg typed_cfg) as Hc
    by (repeat constructor).
  split; [exact Hi|]. split; [exact Hc|].
  exact (@resolution_reads_only unit sample _ _ _ _ start Hi Hc).
Defined.

Lemma audio_ignores_video_options_witness :
  requested_type audio_item = inr "audio"
  ∧ agree_on audio_item_keys audio_item requalified_audio_item
  ∧ agree_on audio_cfg_keys sponsor_cfg sponsor_cfg
  ∧ @build_ydl_opts unit sample audio_item sponsor_cfg start
    = @build_ydl_opts unit sample requalified_audio_item sponsor_cfg start.
Proof.
  assert (requested_type audio_item = inr "audio") as Hk
    by (vm_compute; reflexivity).
  assert (agree_on audio_item_keys audio_item requalified_audio_item) as Hi
    by (repeat constructor).
  assert (agree_on audio_cfg_keys sponsor_cfg sponsor_cfg) as Hc
    by (repeat constructor).
  split; [exact Hk|]. split; [exact Hi|]. split; [exact Hc|].
  exact (@audio_ignores_video_options unit sample _ _ _ _ start Hk Hi Hc).
Defined.

Lemma bad_type_raises_after_mkdir_witness :
  str_or_falsy (py_get numeric_type_item "type") = false
  ∧ @build_ydl_opts unit sample numeric_type_item limit_cfg start
    = (inl (AttributeError "lower"), State tt (trace start)).
Proof.
  assert (str_or_falsy (py_get numeric_type_item "type") = false) as Hty
    by (vm_compute; reflexivity).
  split; [exact Hty|].
  apply (@bad_type_raises_after_mkdir unit sample numeric_type_item limit_cfg
           start "media" "/srv/media" tt "%(title)s.%(ext)s");
    first [exact Hty|vm_compute; reflexivity].
Defined.

Lemma progress_hook_frame_witness :
  @_progress_hook unit sample numeric_percent_event start
  = (inl (AttributeError "strip"), start)
  ∧ world start = world start
  ∧ ∃ added, trace start = trace start ++ added ∧ (length added ≤ 1)%nat.
Proof.
  assert (@_progress_hook unit sample numeric_percent_event start
          = (inl (AttributeError "strip"), start)) as Hrun
    by (vm_compute; reflexivity).
  split; [exact Hrun|].
  destruct (@progress_hook_frame unit sample _ _ _ _ Hrun)
    as (Hw & added & Ht & Hlen & _).
  split; [exact Hw|]. exists added. split; [exact Ht|exact Hlen].
Defined.
